(** * editly: the frame composition engine

    A shallow embedding of [createFrameSource] (the engine that builds one
    frame source per visual layer of a clip and composes a frame per
    requested time) and of [fillColorFrameSource]
    (sources/fabric/fabricFrameSources.js), with the properties of the
    specification stated and proved over it.

    The sources of that file that compute on numbers and on text
    ([getZoomParams], the subtitle, the list and the fade mask) are
    embedded after the engine, with properties of their own.

    Conventions of the embedding:
    - a JavaScript number is an IEEE 754 binary64 value, with its rounding,
      its two zeros, its infinities and its NaN, as the Standard Library
      specifies them ([SpecFloat]); only [getZoomParams] and the colour
      stops of the fade mask are embedded over exact numbers, as is said
      where they are defined;
    - an [async] function is a computation in a state-and-exception monad
      and [await] is its bind;
    - the calls by which the engine leaves its own code (a layer factory, a
      layer's render, the canvas methods, the rasterizer) are recorded in a
      trace of events, kept apart from the state that the collaborators
      themselves can touch. *)

From Stdlib Require Import ZArith QArith Qround Lqa Lia Ascii String DecimalString.
From Stdlib.Strings Require Import Byte.
From stdpp Require Import gmap strings list.
From Stdlib.Floats Require Import SpecFloat.

(** ** JavaScript numbers *)

Definition JsNum : Type := spec_float.

Module Js.

(** The format: 53 bits of precision, exponents below 1024. *)
Definition prec : Z := 53.
Definition emax : Z := 1024.

(** The number nearest to an integer. *)
Definition ofZ (z : Z) : JsNum := binary_normalize prec emax z 0 false.

(** [- x], [x + y], [x - y], [x * y], [x / y] *)
Definition neg (x : JsNum) : JsNum := SFopp x.
Definition add (x y : JsNum) : JsNum := SFadd prec emax x y.
Definition sub (x y : JsNum) : JsNum := SFsub prec emax x y.
Definition mul (x y : JsNum) : JsNum := SFmul prec emax x y.
Definition div (x y : JsNum) : JsNum := SFdiv prec emax x y.

(** [x < y], [x <= y], [x > y], [x >= y]; every comparison with a NaN is
    false, and the two zeros compare equal. *)
Definition lt (x y : JsNum) : bool := SFltb x y.
Definition le (x y : JsNum) : bool := SFleb x y.
Definition gt (x y : JsNum) : bool := SFltb y x.
Definition ge (x y : JsNum) : bool := SFleb y x.

(** [Math.max(x, y)] and [Math.min(x, y)]: a NaN if an argument is one;
    the positive zero is the larger zero. *)
Definition max (x y : JsNum) : JsNum :=
  match x, y with
  | S754_nan, _ | _, S754_nan => S754_nan
  | S754_zero sx, S754_zero sy => S754_zero (sx && sy)
  | _, _ => if SFleb x y then y else x
  end.

Definition min (x y : JsNum) : JsNum :=
  match x, y with
  | S754_nan, _ | _, S754_nan => S754_nan
  | S754_zero sx, S754_zero sy => S754_zero (sx || sy)
  | _, _ => if SFleb x y then x else y
  end.

(** [Math.round(x)]: the nearest integer, a half going up; a result of
    zero keeps the sign of [x].  A number whose exponent is not negative is
    an integer already. *)
Definition round (x : JsNum) : JsNum :=
  match x with
  | S754_finite s m e =>
      if (0 <=? e)%Z then x
      else
        let n := ((cond_Zopp s (2 * Zpos m) + 2 ^ (- e)) / 2 ^ (1 - e))%Z in
        if (n =? 0)%Z then S754_zero s else ofZ n
  | _ => x
  end.


(** The sign bit of a number; a NaN has none here. *)
Definition signBit (x : JsNum) : option bool :=
  match x with
  | S754_zero s | S754_infinity s | S754_finite s _ _ => Some s
  | S754_nan => None
  end.

(** The representation is the canonical one of a binary64 value, as it is
    for every number a program holds. *)
Definition valid (x : JsNum) : bool := valid_binary prec emax x.

End Js.

Declare Scope jsnum_scope.
Delimit Scope jsnum_scope with jsnum.
Bind Scope jsnum_scope with JsNum.
Notation "x + y" := (Js.add x y) : jsnum_scope.
Notation "x - y" := (Js.sub x y) : jsnum_scope.
Notation "x * y" := (Js.mul x y) : jsnum_scope.
Notation "x / y" := (Js.div x y) : jsnum_scope.
Notation "- x" := (Js.neg x) : jsnum_scope.

(** A decimal literal of the source: the number nearest to it.  The
    quotient of two integers that are numbers themselves is rounded once,
    as the literal is. *)
Definition lit (q : Q) : JsNum := Js.div (Js.ofZ (Qnum q)) (Js.ofZ (Zpos (Qden q))).
Arguments lit q%_Q.

(** The length of an array or of a string, and an index, as numbers. *)
Definition ofNat (n : nat) : JsNum := Js.ofZ (Z.of_nat n).

(** [Number.MIN_VALUE], the least positive number. *)
Definition minValue : JsNum := S754_finite false 1 (-1074).

(** Truthiness of a value that is [undefined] or a string: the empty string
    is falsy. *)
Definition truthy (v : option string) : bool :=
  match v with
  | Some s => negb (String.eqb s EmptyString)
  | None => false
  end.

(** [a || b] on such values. *)
Definition js_or (a b : option string) : option string :=
  if truthy a then a else b.

(** ** Clips and layers *)

(** A layer of a clip.  [color] is the one type-specific parameter that the
    embedded code reads; [None] is JavaScript's [undefined]. *)
Record Layer : Type := mkLayer {
  type : string;
  start : JsNum;
  layerDuration : JsNum;
  color : option string
}.

Record Clip : Type := mkClip {
  layers : list Layer;
  duration : JsNum
}.

(** [const offsetProgress = (time - (layer.start)) / layer.layerDuration] *)
Definition offsetProgress (time : JsNum) (layer : Layer) : JsNum :=
  (time - start layer) / layerDuration layer.

(** [const shouldDrawLayer = offsetProgress >= 0 && offsetProgress <= 1] *)
Definition shouldDrawLayer (time : JsNum) (layer : Layer) : bool :=
  Js.ge (offsetProgress time layer) (lit 0) && Js.le (offsetProgress time layer) (lit 1).

(** ** The canvas *)

Definition Buffer : Type := list byte.

(** The drawables that the embedded code creates are [fabric.Rect] (with the
    options [fillColorFrameSource] passes) and the [fabric.Image] made from a
    raw buffer; [Other] stands for any drawable of another layer type. *)
Inductive FabricObject : Type :=
  | Rect (left right width height : nat) (fill : option string)
  | Image (width height : nat) (rgba : Buffer)
  | Other (description : string).

Record Canvas : Type := mkCanvas {
  canvasWidth : nat;
  canvasHeight : nat;
  _objects : list FabricObject
}.

Definition createFabricCanvas (width height : nat) : Canvas :=
  mkCanvas width height [].

(** [canvas.add(obj)] appends to the object list. *)
Definition canvas_add (obj : FabricObject) (canvas : Canvas) : Canvas :=
  mkCanvas (canvasWidth canvas) (canvasHeight canvas) (_objects canvas ++ [obj]).

(** Modelled from the spec: [rgbaToFabricImage] (./fabric.js, not among the
    sources) wraps a raw buffer as an image drawable of the frame's size. *)
Definition rgbaToFabricImage (width height : nat) (rgba : Buffer) : FabricObject :=
  Image width height rgba.

(** ** Effects *)

Inductive JsError : Type :=
  | AssertionError (message : string)
  | Thrown (what : string).

Inductive Outcome (A : Type) : Type :=
  | Ok (a : A)
  | Throw (e : JsError).
Arguments Ok {A} a.
Arguments Throw {A} e.

(** A computation over a state of type [St] that returns or throws. *)
Definition M (St A : Type) : Type := St -> Outcome A * St.

Definition ret {St A : Type} (a : A) : M St A := fun s => (Ok a, s).

Definition bind {St A B : Type} (m : M St A) (k : A -> M St B) : M St B :=
  fun s =>
    match m s with
    | (Ok a, s') => k a s'
    | (Throw e, s') => (Throw e, s')
    end.

Definition throw {St A : Type} (e : JsError) : M St A := fun s => (Throw e, s).

Declare Scope js_scope.
Delimit Scope js_scope with js.
Notation "'await' x <- m ; k" := (bind m (fun x => k))
  (at level 10, x pattern, m at level 100, k at level 200) : js_scope.
Notation "m ;; k" := (bind m (fun _ => k))
  (at level 100, k at level 200, right associativity) : js_scope.
Local Open Scope js_scope.

Inductive Event : Type :=
  | EvFactory (layerIndex : nat) (tag : string)
  | EvCreated (layerIndex : nat)
  | EvRender (layerIndex : nat) (progress : JsNum)
  | EvImage
  | EvStringify
  | EvClear
  | EvDispose
  | EvRasterize
  | EvClose (layerIndex : nat).

(** The engine runs over the collaborators' state paired with the trace. *)
Definition Run (World : Type) : Type := (World * list Event)%type.

Definition lift {World A : Type} (m : M World A) : M (Run World) A :=
  fun s => let (r, w) := m (fst s) in (r, (w, snd s)).

Definition emit {World : Type} (e : Event) : M (Run World) unit :=
  fun s => (Ok tt, (fst s, snd s ++ [e])).

(** ** Frame sources and the collaborators outside the embedded code *)

Module FrameSource.
Record t (World : Type) : Type := mk {
  readNextFrame : JsNum -> Canvas -> M World (option Buffer * Canvas);
  close : M World unit
}.
Arguments mk {World} _ _.
Arguments readNextFrame {World} _ _ _.
Arguments close {World} _.
End FrameSource.

(** The options handed to a layer factory. *)
Record Opts : Type := mkOpts {
  width : nat;
  height : nat;
  optsDuration : JsNum;
  channels : nat;
  params : Layer
}.

(** What a fabric source function returns: [{ onRender, onClose }]. *)
Record FabricCallbacks (World : Type) : Type := mkCallbacks {
  onRender : JsNum -> Canvas -> M World Canvas;
  onClose : option (M World unit)
}.
Arguments mkCallbacks {World} _ _.
Arguments onRender {World} _ _ _.
Arguments onClose {World} _.

Definition FabricFunc (World : Type) : Type := Opts -> M World (FabricCallbacks World).

(** The first argument of [createFabricFrameSource]: what the lookup
    [fabricFrameSources[type]] evaluated to. *)
Inductive FabricArg (World : Type) : Type :=
  | SourceFunction (f : FabricFunc World)
  | PrototypeMember (name : string).
Arguments SourceFunction {World} f.
Arguments PrototypeMember {World} name.

(** Everything the two embedded files import and that is not among the
    sources. *)
Record Externals (World : Type) : Type := mkExternals {
  (* ../../colors *)
  getRandomColors : nat -> M World (list string);
  (* ./fabric.js *)
  createFabricFrameSource : FabricArg World -> Opts -> M World (FrameSource.t World);
  createCustomCanvasFrameSource : Opts -> M World (FrameSource.t World);
  renderFabricCanvas : Canvas -> Buffer;
  (* fabric's serialization of one drawable, used by JSON.stringify *)
  toJSON : FabricObject -> string;
  (* ./videoFrameSource.js and ./glFrameSource.js *)
  createVideoFrameSource : Opts -> M World (FrameSource.t World);
  createGlFrameSource : Opts -> M World (FrameSource.t World);
  (* the fabric source functions other than fillColorFrameSource *)
  customFabricFrameSource : FabricFunc World;
  imageFrameSource : FabricFunc World;
  imageOverlayFrameSource : FabricFunc World;
  titleFrameSource : FabricFunc World;
  subtitleFrameSource : FabricFunc World;
  linearGradientFrameSource : FabricFunc World;
  radialGradientFrameSource : FabricFunc World;
  newsTitleFrameSource : FabricFunc World;
  slideInTextFrameSource : FabricFunc World
}.
Arguments getRandomColors {World} _ _.
Arguments createFabricFrameSource {World} _ _ _.
Arguments createCustomCanvasFrameSource {World} _ _.
Arguments renderFabricCanvas {World} _ _.
Arguments toJSON {World} _ _.
Arguments createVideoFrameSource {World} _ _.
Arguments createGlFrameSource {World} _ _.
Arguments customFabricFrameSource {World} _.
Arguments imageFrameSource {World} _.
Arguments imageOverlayFrameSource {World} _.
Arguments titleFrameSource {World} _.
Arguments subtitleFrameSource {World} _.
Arguments linearGradientFrameSource {World} _.
Arguments radialGradientFrameSource {World} _.
Arguments newsTitleFrameSource {World} _.
Arguments slideInTextFrameSource {World} _.

(** ** Property lookup on an object literal *)

(** The properties every object literal inherits from [Object.prototype];
    each of them is a function or an object, hence truthy. *)
Definition objectPrototype : gset string :=
  list_to_set
    [ "constructor"; "__proto__"; "hasOwnProperty"; "isPrototypeOf";
      "propertyIsEnumerable"; "toLocaleString"; "toString"; "valueOf";
      "__defineGetter__"; "__defineSetter__"; "__lookupGetter__";
      "__lookupSetter__" ].

Inductive JsProperty (A : Type) : Type :=
  | Own (a : A)
  | Inherited (name : string)
  | Undefined.
Arguments Own {A} a.
Arguments Inherited {A} name.
Arguments Undefined {A}.

(** [obj[key]]: an own property first, then the prototype. *)
Definition js_get {A : Type} (obj : gmap string A) (key : string) : JsProperty A :=
  match obj !! key with
  | Some a => Own a
  | None => if decide (key ∈ objectPrototype) then Inherited key else Undefined
  end.

(** [JSON.stringify] of an array. *)
Definition JSON_stringify (toJSON : FabricObject -> string) (objs : list FabricObject) : string :=
  "[" +:+ String.concat "," (map toJSON objs) +:+ "]".

(** [pMap(items, mapper, { concurrency: 1 })]: one mapper promise pending at
    a time, so the mapper runs on the items in order, each after the one
    before it settled; the first rejection rejects the whole. *)
Fixpoint pMap_serial {St A B : Type} (mapper : A -> nat -> M St B)
    (index : nat) (items : list A) : M St (list B) :=
  match items with
  | [] => ret []
  | item :: rest =>
      await b <- mapper item index;
      await bs <- pMap_serial mapper (S index) rest;
      ret (b :: bs)
  end.

(** [pMap(items, mapper)] with the default options: the concurrency is not
    bounded and the first rejection rejects the whole.  The package is not
    among the sources.  As p-map is written since it takes asynchronous
    iterables (version 5.3), it takes the items one by one, each after a
    turn of the job queue, and does not call the mapper for an item once
    the whole is rejected.  A mapper of this embedding has settled when it
    returns, so its rejection is there before the next item is taken: the
    mapper runs on the items in order, up to the first that rejects.  With
    mappers that settle later than they are called, or with an earlier
    p-map, the mapper is called on more of the items. *)
Definition pMap_unbounded {St A B : Type} (mapper : A -> nat -> M St B)
    (items : list A) : M St (list B) :=
  pMap_serial mapper 0 items.

(** ** The embedded code *)

Record LayerFrameSource (World : Type) : Type := mkLayerFrameSource {
  layer : Layer;
  frameSource : FrameSource.t World
}.
Arguments mkLayerFrameSource {World} _ _.
Arguments layer {World} _.
Arguments frameSource {World} _.

(** What the body of the [for] loop of [readNextFrame] leaves: the loop ran
    to its end, or a [return] left the function. *)
Inductive LoopExit : Type :=
  | Completed (canvas : Canvas)
  | Returned (rgba : Buffer).

(** What [readNextFrame] returns: the bare buffer of the single-layer
    shortcut, or the pair [[rgba, objectsString]] whose first component is
    [undefined] when the canvas has not changed. *)
Inductive FrameResult : Type :=
  | Bare (rgba : Buffer)
  | Pair (rgba : option Buffer) (objectsString : string).

(** The object [createFrameSource] returns.  [layerFrameSources] is the
    array its two functions close over. *)
Module Engine.
Record t (World : Type) : Type := mk {
  readNextFrame : JsNum -> option string -> M (Run World) FrameResult;
  close : M (Run World) unit;
  layerFrameSources : list (LayerFrameSource World)
}.
Arguments mk {World} _ _ _.
Arguments readNextFrame {World} _ _ _.
Arguments close {World} _.
Arguments layerFrameSources {World} _.
End Engine.

Section Composition.
Context {World : Type} (ext : Externals World).

(** [fillColorFrameSource({ params, width, height })] *)
Definition fillColorFrameSource : FabricFunc World := fun opts =>
  let color := color (params opts) in
  await colors <- getRandomColors ext 1;
  let randomColor := head colors in
  ret (mkCallbacks
         (fun progress canvas =>
            let rect := Rect 0 0 (width opts) (height opts) (js_or color randomColor) in
            ret (canvas_add rect canvas))
         None).

(** [const fabricFrameSources = { fabric: ..., ... }] *)
Definition fabricFrameSources : gmap string (FabricFunc World) :=
  list_to_map
    [ ("fabric", customFabricFrameSource ext);
      ("image", imageFrameSource ext);
      ("image-overlay", imageOverlayFrameSource ext);
      ("title", titleFrameSource ext);
      ("subtitle", subtitleFrameSource ext);
      ("linear-gradient", linearGradientFrameSource ext);
      ("radial-gradient", radialGradientFrameSource ext);
      ("fill-color", fillColorFrameSource);
      ("news-title", newsTitleFrameSource ext);
      ("slide-in-text", slideInTextFrameSource ext) ].

(** The object literal of the [else] branch. *)
Definition otherFrameSources : gmap string (Opts -> M World (FrameSource.t World)) :=
  list_to_map
    [ ("video", createVideoFrameSource ext);
      ("gl", createGlFrameSource ext);
      ("canvas", createCustomCanvasFrameSource ext) ].

(** The value of [createFrameSourceFunc] after the [if]/[else]; [None] is a
    falsy value.  A tag that names a member of [Object.prototype] is truthy
    in the first lookup already, so in the [else] branch only the own
    properties of the second literal are left to find. *)
Definition createFrameSourceFunc (tag : string)
    : option (Opts -> M World (FrameSource.t World)) :=
  match js_get fabricFrameSources tag with
  | Own f => Some (createFabricFrameSource ext (SourceFunction f))
  | Inherited name => Some (createFabricFrameSource ext (PrototypeMember name))
  | Undefined =>
      match js_get otherFrameSources tag with
      | Own f => Some f
      | _ => None
      end
  end.

(** The mapper given to [pMap] in [createFrameSource]. *)
Definition createLayerFrameSource (clipDuration : JsNum) (width height channels : nat)
    (layer : Layer) (layerIndex : nat) : M (Run World) (LayerFrameSource World) :=
  match createFrameSourceFunc (type layer) with
  | None => throw (AssertionError ("Invalid type " +:+ type layer))
  | Some func =>
      emit (EvFactory layerIndex (type layer));;
      await frameSource <- lift (func (mkOpts width height clipDuration channels layer));
      emit (EvCreated layerIndex);;
      ret (mkLayerFrameSource layer frameSource)
  end.

(** The [for] loop of [readNextFrame]; [count] is
    [layerFrameSources.length] and [index] the position of the head of
    [rest] in it. *)
Fixpoint renderLayers (width height count : nat) (time : JsNum) (index : nat)
    (rest : list (LayerFrameSource World)) (canvas : Canvas) : M (Run World) LoopExit :=
  match rest with
  | [] => ret (Completed canvas)
  | lfs :: rest' =>
      let offsetProgress := offsetProgress time (layer lfs) in
      if shouldDrawLayer time (layer lfs) then
        emit (EvRender index offsetProgress);;
        await drawn <-
          lift (FrameSource.readNextFrame (frameSource lfs) offsetProgress canvas);
        let (rgba, canvas) := drawn in
        match rgba with
        | Some rgba =>
            if Nat.eqb count 1 then ret (Returned rgba)
            else
              emit EvImage;;
              let img := rgbaToFabricImage width height rgba in
              renderLayers width height count time (S index) rest' (canvas_add img canvas)
        | None =>
            renderLayers width height count time (S index) rest' canvas
        end
      else renderLayers width height count time (S index) rest' canvas
  end.

(** The part of [readNextFrame] after the loop. *)
Definition compareAndRender (lastCanvasObjects : option string) (canvas : Canvas)
    : M (Run World) FrameResult :=
  emit EvStringify;;
  let objectsString := JSON_stringify (toJSON ext) (_objects canvas) in
  if truthy lastCanvasObjects && bool_decide (Some objectsString = lastCanvasObjects) then
    emit EvClear;;
    emit EvDispose;;
    ret (Pair None objectsString)
  else
    emit EvRasterize;;
    ret (Pair (Some (renderFabricCanvas ext canvas)) objectsString).

(** [async function readNextFrame({ time, lastCanvasObjects })] *)
Definition readNextFrame (width height : nat)
    (layerFrameSources : list (LayerFrameSource World))
    (time : JsNum) (lastCanvasObjects : option string) : M (Run World) FrameResult :=
  let canvas := createFabricCanvas width height in
  await exit <- renderLayers width height (length layerFrameSources) time 0
                  layerFrameSources canvas;
  match exit with
  | Returned rgba => ret (Bare rgba)
  | Completed canvas => compareAndRender lastCanvasObjects canvas
  end.

(** The mapper given to [pMap] in [close]. *)
Definition closeLayerFrameSource (lfs : LayerFrameSource World) (index : nat)
    : M (Run World) unit :=
  emit (EvClose index);;
  lift (FrameSource.close (frameSource lfs)).

(** [async function close()] *)
Definition close (layerFrameSources : list (LayerFrameSource World))
    : M (Run World) unit :=
  await _ <- pMap_unbounded closeLayerFrameSource layerFrameSources;
  ret tt.

(** [export async function createFrameSource({ clip, width, height, channels, ... })] *)
Definition createFrameSource (clip : Clip) (width height channels : nat)
    : M (Run World) (Engine.t World) :=
  let visualLayers :=
    filter (fun layer => type layer ≠ "audio") (layers clip) in
  await layerFrameSources <-
    pMap_serial (createLayerFrameSource (duration clip) width height channels)
      0 visualLayers;
  ret (Engine.mk (readNextFrame width height layerFrameSources)
         (close layerFrameSources) layerFrameSources).

End Composition.

(** One independent run: a fresh engine for the clip, and one frame
    requested from it. *)
Definition freshRun {World : Type} (ext : Externals World) (clip : Clip)
    (width height channels : nat) (time : JsNum) (lastCanvasObjects : option string)
    : M (Run World) FrameResult :=
  await engine <- createFrameSource ext clip width height channels;
  Engine.readNextFrame engine time lastCanvasObjects.

(** ** Reading a trace *)

(** The render calls of a trace, as (layer index, progress passed). *)
Definition renderCalls (trace : list Event) : list (nat * JsNum) :=
  omap (fun e => match e with EvRender i p => Some (i, p) | _ => None end) trace.

(** The render calls a frame at [time] is due: one per layer whose window
    holds [time], in the order of the layers, with the layer's progress. *)
Fixpoint activeCalls (time : JsNum) (index : nat) (layers : list Layer) : list (nat * JsNum) :=
  match layers with
  | [] => []
  | layer :: rest =>
      (if shouldDrawLayer time layer then [(index, offsetProgress time layer)] else [])
      ++ activeCalls time (S index) rest
  end.

(** The factory events of a trace. *)
Definition factoryEvents (trace : list Event) : list Event :=
  List.filter
    (fun e => match e with EvFactory _ _ | EvCreated _ => true | _ => false end) trace.

(** One factory at a time, in layer order: the call for a layer, then its
    completion, then the next layer. *)
Fixpoint serialConstruction (index : nat) (layers : list Layer) : list Event :=
  match layers with
  | [] => []
  | layer :: rest =>
      EvFactory index (type layer) :: EvCreated index :: serialConstruction (S index) rest
  end.

(** ** The rasterizer *)

(** A pixel: red, green, blue, alpha. *)
Definition Pixel : Type := (byte * byte * byte * byte)%type.

Definition transparent : Pixel := (x00, x00, x00, x00).

Definition pixelBytes (p : Pixel) : Buffer :=
  let '(r, g, b, a) := p in [r; g; b; a].

(** What a drawable makes of the pixel at column [x] of row [y], given
    what is under it there. *)
Definition Painter : Type := FabricObject -> nat -> nat -> Pixel -> Pixel.

(** The drawables are painted in list order, each over what is there. *)
Definition pixelAt (paint : Painter) (objs : list FabricObject) (x y : nat) : Pixel :=
  foldl (fun under obj => paint obj x y under) transparent objs.

(** Modelled from the spec: [renderFabricCanvas] (./fabric.js, not among the
    sources) rasterizes the canvas to a raw RGBA buffer of width x height
    pixels, row by row; the object list is the z-order, first at the
    bottom, so each drawable is painted over the ones before it.  What a
    drawable of a given kind paints is left to [paint]. *)
Definition paintCanvas (paint : Painter) (canvas : Canvas) : Buffer :=
  y ← seq 0 (canvasHeight canvas);
  x ← seq 0 (canvasWidth canvas);
  pixelBytes (pixelAt paint (_objects canvas) x y).

(** The four bytes of the pixel at column [x] of row [y] in a raw buffer of
    rows of [width] pixels. *)
Definition pixelOf (width : nat) (rgba : Buffer) (x y : nat) : Buffer :=
  take 4 (drop (4 * (y * width + x)) rgba).

(** A painter for the two drawables the engine and [fillColorFrameSource]
    make, without transparency: a rectangle with a fill written [#rrggbb]
    and an image put their own pixel where they lie; anything else leaves
    what is under it. *)
Definition hexDigit (c : ascii) : option N :=
  let n := N_of_ascii c in
  if ((48 <=? n) && (n <=? 57))%N then Some (n - 48)%N
  else if ((97 <=? n) && (n <=? 102))%N then Some (n - 87)%N
  else if ((65 <=? n) && (n <=? 70))%N then Some (n - 55)%N
  else None.

Definition hexByte (hi lo : ascii) : option byte :=
  h ← hexDigit hi; l ← hexDigit lo; Byte.of_N (16 * h + l)%N.

Definition cssColor (s : string) : option Pixel :=
  match s with
  | String "#" (String r1 (String r2 (String g1 (String g2 (String b1 (String b2 EmptyString)))))) =>
      r ← hexByte r1 r2; g ← hexByte g1 g2; b ← hexByte b1 b2;
      Some (r, g, b, xff)
  | _ => None
  end.

(** A rectangle lies at [left] on the top edge; an image lies at the origin
    and holds four bytes per pixel, row by row. *)
Definition objectPixel (obj : FabricObject) (x y : nat) : option Pixel :=
  match obj with
  | Rect x0 _ w h fill =>
      if (x0 <=? x)%nat && (x <? x0 + w)%nat && (y <? h)%nat
      then fill ≫= cssColor else None
  | Image w h rgba =>
      if (x <? w)%nat && (y <? h)%nat then
        match take 4 (drop (4 * (y * w + x)) rgba) with
        | [r; g; b; a] => Some (r, g, b, a)
        | _ => None
        end
      else None
  | Other _ => None
  end.

Definition opaquePainter : Painter :=
  fun obj x y under => default under (objectPixel obj x y).

(** Modelled from the spec: [createFabricFrameSource] (./fabric.js, not among
    the sources) makes a frame source of a fabric source function: its render
    runs [onRender], which draws on the shared canvas, and returns nothing;
    its close runs [onClose] when there is one. *)
Definition fabricFrameSource {World : Type} (func : FabricFunc World) (opts : Opts)
    : M World (FrameSource.t World) :=
  await callbacks <- func opts;
  ret (FrameSource.mk
         (fun progress canvas =>
            await canvas' <- onRender callbacks progress canvas;
            ret (None, canvas'))
         (default (ret tt) (onClose callbacks))).

(** ** A concrete environment

    Used to run the engine on examples.  Its state is the list of colours
    that the random generator hands out next; its raw-buffer sources return
    a buffer of one repeated byte; its other fabric sources add one drawable
    named after them. *)
Module Sample.

Definition World : Type := list string.

Definition getRandomColors (n : nat) : M World (list string) :=
  fun upcoming => (Ok (take n upcoming), drop n upcoming).

Definition solidSource (b : byte) (opts : Opts) : M World (FrameSource.t World) :=
  ret (FrameSource.mk
         (fun _ canvas => ret (Some (repeat b (width opts * height opts * 4)), canvas))
         (ret tt)).

Definition namedSource (name : string) : FabricFunc World := fun _ =>
  ret (mkCallbacks (fun _ canvas => ret (canvas_add (Other name) canvas)) None).

(** What the wrapper makes of a member of [Object.prototype] is not
    specified; in this environment it throws. *)
Definition createFabricFrameSource (arg : FabricArg World) (opts : Opts)
    : M World (FrameSource.t World) :=
  match arg with
  | SourceFunction func => fabricFrameSource func opts
  | PrototypeMember name => throw (Thrown ("not a source function: " +:+ name))
  end.

Definition decimal (n : nat) : string := NilZero.string_of_uint (Nat.to_uint n).

Definition toJSON (obj : FabricObject) : string :=
  match obj with
  | Rect x0 _ w h fill =>
      "{rect," +:+ decimal x0 +:+ "," +:+ decimal w +:+ "," +:+ decimal h
      +:+ "," +:+ default EmptyString fill +:+ "}"
  | Image w h rgba =>
      "{image," +:+ decimal w +:+ "," +:+ decimal h +:+ ","
      +:+ string_of_list_byte rgba +:+ "}"
  | Other description => "{" +:+ description +:+ "}"
  end.

Definition externals : Externals World :=
  mkExternals World
    getRandomColors
    createFabricFrameSource
    (solidSource x80)
    (paintCanvas opaquePainter)
    toJSON
    (solidSource x40)
    (solidSource x20)
    (namedSource "fabric")
    (namedSource "image")
    (namedSource "image-overlay")
    (namedSource "title")
    (namedSource "subtitle")
    (namedSource "linear-gradient")
    (namedSource "radial-gradient")
    (namedSource "news-title")
    (namedSource "slide-in-text").

(** A clip of one raw-buffer layer and one fill-color overlay that is
    active from 2 to 4. *)
Definition overlayClip : Clip :=
  mkClip [ mkLayer "canvas" (lit 0) (lit 10) None;
           mkLayer "fill-color" (lit 2) (lit 2) (Some "#ff0000") ] (lit 10).

(** A clip of one fill-color layer that names no colour. *)
Definition uncolouredClip : Clip :=
  mkClip [ mkLayer "fill-color" (lit 0) (lit 10) None ] (lit 10).

(** A clip of one raw-buffer layer. *)
Definition rawClip : Clip :=
  mkClip [ mkLayer "canvas" (lit 0) (lit 10) None ] (lit 10).

(** A clip whose only layer runs backwards from 5 to 3. *)
Definition backwardsClip : Clip :=
  mkClip [ mkLayer "fill-color" (lit 5) (lit (-2)) (Some "#ff0000") ] (lit 10).

(** A clip of one red fill-color layer. *)
Definition redClip : Clip :=
  mkClip [ mkLayer "fill-color" (lit 0) (lit 10) (Some "#ff0000") ] (lit 10).

(** The layer frame sources that [createFrameSource] builds for a clip at
    2 x 1 pixels. *)
Definition built (clip : Clip) (upcoming : World) : list (LayerFrameSource World) :=
  match createFrameSource externals clip 2 1 4 (upcoming, []) with
  | (Ok engine, _) => Engine.layerFrameSources engine
  | (Throw _, _) => []
  end.

(** The same, written out for the layers of the clips above. *)
Definition rawSource : LayerFrameSource World :=
  mkLayerFrameSource (mkLayer "canvas" (lit 0) (lit 10) None)
    (FrameSource.mk (fun _ canvas => ret (Some (repeat x80 8), canvas)) (ret tt)).

Definition rectSource (layer : Layer) (fill : option string) : LayerFrameSource World :=
  mkLayerFrameSource layer
    (FrameSource.mk
       (fun _ canvas =>
          await canvas' <- ret (canvas_add (Rect 0 0 2 1 fill) canvas);
          ret (None, canvas'))
       (ret tt)).

Definition overlaySource : LayerFrameSource World :=
  rectSource (mkLayer "fill-color" (lit 2) (lit 2) (Some "#ff0000")) (Some "#ff0000").

Definition redSource : LayerFrameSource World :=
  rectSource (mkLayer "fill-color" (lit 0) (lit 10) (Some "#ff0000")) (Some "#ff0000").

End Sample.

(** ** Notions used in the statements *)

(** Some drawable of the list covers the pixel: what it paints there does
    not depend on what is under it. *)
Definition covers (paint : Painter) (objs : list FabricObject) (x y : nat) : Prop :=
  Exists (fun obj => forall under1 under2 : Pixel,
                       paint obj x y under1 = paint obj x y under2) objs.

(** What the loop of [readNextFrame] does with the outcome of a render when
    the engine holds several layers: the canvas it goes on with, and the
    events it adds after the render. *)
Definition afterRender (width height : nat) (rgba : option Buffer) (canvas : Canvas) : Canvas :=
  match rgba with
  | Some rgba => canvas_add (rgbaToFabricImage width height rgba) canvas
  | None => canvas
  end.

Definition wrapEvents (rgba : option Buffer) : list Event :=
  match rgba with
  | Some _ => [EvImage]
  | None => []
  end.

(** A fill-color layer that names a colour: a non-empty string. *)
Definition namesColor (layer : Layer) : Prop :=
  type layer = "fill-color" /\ truthy (color layer) = true.

(** Two layer frame sources of the same layer that render alike: each
    render returns what one function of the progress and the canvas gives,
    does not throw, and neither reads nor changes the state. *)
Definition sameRendering {World : Type} (a b : LayerFrameSource World) : Prop :=
  layer a = layer b
  /\ exists render : JsNum -> Canvas -> option Buffer * Canvas,
       forall (progress : JsNum) (canvas : Canvas) (world : World),
         FrameSource.readNextFrame (frameSource a) progress canvas world
         = (Ok (render progress canvas), world)
         /\ FrameSource.readNextFrame (frameSource b) progress canvas world
            = (Ok (render progress canvas), world).

(** The frame source of a layer is built, from whatever state, without
    throwing and so that it renders alike. *)
Definition builtAlike {World : Type} (ext : Externals World)
    (clipDuration : JsNum) (width height channels : nat) (layer : Layer) : Prop :=
  forall (index : nat) (s1 s2 : Run World),
    exists a b s1' s2',
      createLayerFrameSource ext clipDuration width height channels layer index s1
      = (Ok a, s1')
      /\ createLayerFrameSource ext clipDuration width height channels layer index s2
         = (Ok b, s2')
      /\ sameRendering a b.

(** The drawable the loop adds itself for the outcome of a render. *)
Definition wrapped (width height : nat) (rgba : option Buffer) : list FabricObject :=
  match rgba with
  | Some rgba => [rgbaToFabricImage width height rgba]
  | None => []
  end.

(** A state that also keeps a log of render calls, and a layer frame
    source over it that behaves as [x] does and in which every call of the
    render first appends [index] and the progress it is given to the log.
    The log is written by the source, not by the engine. *)
Definition Logged (World : Type) : Type := (World * list (nat * JsNum))%type.

Definition logging {World : Type} (index : nat) (x : LayerFrameSource World)
    : LayerFrameSource (Logged World) :=
  mkLayerFrameSource (layer x)
    (FrameSource.mk
       (fun progress canvas s =>
          let (r, world) :=
            FrameSource.readNextFrame (frameSource x) progress canvas (fst s) in
          (r, (world, snd s ++ [(index, progress)])))
       (fun s =>
          let (r, world) := FrameSource.close (frameSource x) (fst s) in
          (r, (world, snd s)))).

Fixpoint loggingFrom {World : Type} (index : nat)
    (sources : list (LayerFrameSource World)) : list (LayerFrameSource (Logged World)) :=
  match sources with
  | [] => []
  | x :: rest => logging index x :: loggingFrom (S index) rest
  end.



(** ** Exact arithmetic

    [getZoomParams] and the two colour stops of [getFadedObject] are
    embedded over the rationals extended with the non-finite values: the
    computation of the source without the rounding of its steps.  What is
    proved of them below are the formulas and the bounds of that
    computation. *)

Inductive ExactNum : Type :=
  | Finite (q : Q)
  | PosInf
  | NegInf
  | NaN.

Module Exact.
Local Open Scope Q_scope.

Definition neg (x : ExactNum) : ExactNum :=
  match x with
  | Finite a => Finite (- a)
  | PosInf => NegInf
  | NegInf => PosInf
  | NaN => NaN
  end.

(** [x + y] *)
Definition add (x y : ExactNum) : ExactNum :=
  match x, y with
  | NaN, _ | _, NaN => NaN
  | Finite a, Finite b => Finite (a + b)
  | PosInf, NegInf | NegInf, PosInf => NaN
  | PosInf, _ | _, PosInf => PosInf
  | NegInf, _ | _, NegInf => NegInf
  end.

(** [x - y] *)
Definition sub (x y : ExactNum) : ExactNum := add x (neg y).

(** The product of an infinity, positive when [positive], with [a]. *)
Definition scaleInf (positive : bool) (a : Q) : ExactNum :=
  if Qeq_bool a 0 then NaN
  else if Bool.eqb positive (Qle_bool 0 a) then PosInf else NegInf.

(** [x * y] *)
Definition mul (x y : ExactNum) : ExactNum :=
  match x, y with
  | NaN, _ | _, NaN => NaN
  | Finite a, Finite b => Finite (a * b)
  | Finite a, PosInf | PosInf, Finite a => scaleInf true a
  | Finite a, NegInf | NegInf, Finite a => scaleInf false a
  | PosInf, PosInf | NegInf, NegInf => PosInf
  | PosInf, NegInf | NegInf, PosInf => NegInf
  end.

(** [x <= y]; every comparison with [NaN] is false. *)
Definition le (x y : ExactNum) : bool :=
  match x, y with
  | NaN, _ | _, NaN => false
  | Finite a, Finite b => Qle_bool a b
  | NegInf, _ | _, PosInf => true
  | PosInf, _ | _, NegInf => false
  end.

(** [Math.max(x, y)] and [Math.min(x, y)] *)
Definition max (x y : ExactNum) : ExactNum :=
  match x, y with
  | NaN, _ | _, NaN => NaN
  | _, _ => if le x y then y else x
  end.

Definition min (x y : ExactNum) : ExactNum :=
  match x, y with
  | NaN, _ | _, NaN => NaN
  | _, _ => if le x y then x else y
  end.

End Exact.


(** ** Strings

    A string is the sequence of its code units; the code units above 255
    are not represented. *)

(** The white space that [trim] removes, among the code units below 256. *)
Definition isWhiteSpace (c : ascii) : bool :=
  let n := N_of_ascii c in
  ((9 <=? n) && (n <=? 13) || (n =? 32) || (n =? 160))%N.

Fixpoint trimStart (s : string) : string :=
  match s with
  | String c rest => if isWhiteSpace c then trimStart rest else s
  | EmptyString => EmptyString
  end.

Fixpoint trimEnd (s : string) : string :=
  match s with
  | String c rest =>
      match trimEnd rest with
      | EmptyString => if isWhiteSpace c then EmptyString else String c EmptyString
      | kept => String c kept
      end
  | EmptyString => EmptyString
  end.

(** [s.trim()] *)
Definition trim (s : string) : string := trimEnd (trimStart s).

(** [c.repeat(n)] for a string of one code unit. *)
Fixpoint repeatChar (c : ascii) (n : nat) : string :=
  match n with
  | O => EmptyString
  | S n' => String c (repeatChar c n')
  end.

(** ** The fabric sources

    The sources of sources/fabric/fabricFrameSources.js draw by building
    fabric objects and adding them to the canvas.  An object is recorded
    as the source builds it: the class, the arguments of [new], and the
    calls and assignments made on it afterwards.  What fabric makes of
    them is not modelled; the sizes fabric computes, the easing functions,
    the image loader and [getPositionProps] are collaborators outside the
    file.

    The file holds two versions of its sources.  They agree on the
    functions embedded here; [listFrameSource] is in the later version
    only. *)
Module Fabric.

#[warnings="-register-all"]
Inductive Node : Type :=
  | NUndefined
  | NNumber (n : JsNum)
  | NString (s : string)
  | NBoolean (b : bool)
  | NObject (fields : list (string * Node))
  | NArray (items : list Node)
  | NNew (class : string) (args : list Node)
  | NCall (target : Node) (method : string) (args : list Node)
  | NSet (target : Node) (property : string) (value : Node).

(** The object list of the canvas; [canvas.add(obj)] appends. *)
Definition Scene : Type := list Node.

Definition add (canvas : Scene) (obj : Node) : Scene := canvas ++ [obj].

(** [{ x, y }] *)
Definition point (x y : JsNum) : Node :=
  NObject [("x", NNumber x); ("y", NNumber y)].

(** [{ left, top, originX, originY }], as [getPositionProps] returns it. *)
Record PositionProps : Type := mkPositionProps {
  left : Node;
  top : Node;
  originX : Node;
  originY : Node
}.

Record Env (World : Type) : Type := mkEnv {
  (* ../../transitions *)
  easeOutExpo : JsNum -> JsNum;
  clampedEaseOutExpo : JsNum -> JsNum;
  clampedEaseInOutCubic : JsNum -> JsNum;
  (* ../../util *)
  getPositionProps : Node -> JsNum -> JsNum -> PositionProps;
  (* fabric: the image loader, and the width and height of an object *)
  loadImage : string -> M World Node;
  widthOf : Node -> JsNum;
  heightOf : Node -> JsNum
}.
Arguments easeOutExpo {World} _ _.
Arguments clampedEaseOutExpo {World} _ _.
Arguments clampedEaseInOutCubic {World} _ _.
Arguments getPositionProps {World} _ _ _ _.
Arguments loadImage {World} _ _.
Arguments widthOf {World} _ _.
Arguments heightOf {World} _ _.

(** [const defaultFontFamily = 'sans-serif'] *)
Definition defaultFontFamily : string := "sans-serif".

(** *** subtitleFrameSource *)

Module Subtitle.
Record Params : Type := mk {
  text : string;
  textColor : option string;
  backgroundColor : option string;
  fontFamily : option string;
  delay : option JsNum;
  speed : option JsNum
}.

Section Source.
Context {World : Type} (env : Env World).
Variables (width height : JsNum) (params : Params).

(** The argument of [easeOutExpo]:
    [Math.max(0, Math.min((progress - delay) * speed, 1))]. *)
Definition subtitleLevel (progress : JsNum) : JsNum :=
  let delay := default (lit 0) (delay params) in
  let speed := default (lit 1) (speed params) in
  Js.max (lit 0) (Js.min ((progress - delay) * speed) (lit 1)).

(** [new fabric.Textbox(text, { ... })] *)
Definition subtitleTextBox (easedProgress : JsNum) : Node :=
  let min := Js.min width height in
  let padding := (lit 0.05 * min)%jsnum in
  NNew "Textbox"
    [ NString (text params);
      NObject [ ("fill", NString (default "#ffffff" (textColor params)));
                ("fontFamily",
                 NString (default defaultFontFamily (fontFamily params)));
                ("fontSize", NNumber (min / lit 20));
                ("textAlign", NString "left");
                ("width", NNumber (width - padding * lit 2));
                ("originX", NString "center");
                ("originY", NString "bottom");
                ("left", NNumber (width / lit 2 + (- lit 1 + easedProgress) * padding));
                ("top", NNumber (height - padding));
                ("opacity", NNumber easedProgress) ] ].

(** [new fabric.Rect({ ... })] *)
Definition subtitleRect (easedProgress : JsNum) : Node :=
  let min := Js.min width height in
  let padding := (lit 0.05 * min)%jsnum in
  NNew "Rect"
    [ NObject [ ("left", NNumber (lit 0));
                ("width", NNumber width);
                ("height",
                 NNumber (heightOf env (subtitleTextBox easedProgress) + padding * lit 2));
                ("top", NNumber height);
                ("originY", NString "bottom");
                ("fill",
                 NString (default "rgba(0,0,0,0.3)" (backgroundColor params)));
                ("opacity", NNumber easedProgress) ] ].

(** [subtitleFrameSource({ width, height, params })]: its [onRender]. *)
Definition subtitleFrameSource : JsNum -> Scene -> Scene :=
  fun progress canvas =>
    let easedProgress := easeOutExpo env (subtitleLevel progress) in
    let textBox := subtitleTextBox easedProgress in
    let rect := subtitleRect easedProgress in
    add (add canvas rect) textBox.

End Source.

End Subtitle.

(** *** getFadedObject *)



(** *** listFrameSource *)

Module TextList.
Record Params : Type := mk {
  text : list string;
  textColor : option string;
  backgroundColor : option string;
  fontFamily : option string;
  startTime : option JsNum;
  finishTime : option JsNum;
  fadeDuration : option JsNum;
  fontScale : option JsNum
}.

Definition maxItems : nat := 11.

(** [input.length > 45 ? `${input.substring(0, 45)}...` : input] *)
Definition truncate (input : string) : string :=
  if 45 <? String.length input then substring 0 45 input +:+ "..." else input.

(** [getScaler(numItems, maximumItems, threshold, targetMinimum)] *)
Definition getScaler (numItems maximumItems threshold targetMinimum : JsNum) : JsNum :=
  if Js.gt numItems threshold
  then lit 1
       - (Js.min numItems maximumItems - threshold)
         * ((lit 1 - targetMinimum) / (maximumItems - threshold))
  else lit 1.

(** The array [text] after
    [if (text.length > maxItems) { text.splice(maxItems - 1, text.length); text.push('  ...   '); }]. *)
Definition capText (text : list string) : list string :=
  if maxItems <? length text
  then take (maxItems - 1) text ++ ["  ...   "]
  else text.

(** An element of [listItems]. *)
Record Item : Type := mkItem {
  itemText : string;
  itemTop : JsNum;
  itemLeft : JsNum
}.

(** What one turn of the loop of [onRender] makes. *)
Record Row : Type := mkRow {
  polylineUnder : Node;
  polyline : Node;
  textBox : Node;
  plTopY : JsNum;
  plBottomY : JsNum;
  plLeftX : JsNum;
  plBotRightX : JsNum;
  bgOpacity : JsNum;
  bgExpansion : JsNum
}.

Section Source.
Context {World : Type} (env : Env World).
Variables (width height duration : JsNum) (params : Params).

(** The parameters with their defaults; [wrapText], [YPos] and [YOrigin]
    are not used by the source. *)
Definition listText : list string := capText (text params).
Definition listTextColor : string := default "#ffffff" (textColor params).
Definition listBackgroundColor : string :=
  default "rgba(0,0,0,0.3)" (backgroundColor params).
Definition listFontFamily : string :=
  default defaultFontFamily (fontFamily params).
Definition listStartTime : JsNum := default (lit 0) (startTime params).
Definition listFinishTime : JsNum :=
  default (listStartTime + lit 10)%jsnum (finishTime params).
Definition listFadeDuration : JsNum := default (lit 3) (fadeDuration params).
Definition listFontScale : JsNum := default (lit 0.038) (fontScale params).

Definition min : JsNum := Js.min width height.
Definition newPaddingV : JsNum := lit 0.018 * min.
Definition fontSize : JsNum := Js.round (min * listFontScale).
Definition leftHPadding : JsNum := lit 0.02 * min.
Definition rightHPadding : JsNum := fontSize * lit 0.82.
Definition rightAngledPadding : JsNum := width * lit 0.028.

(** [createTextBox(rowText, textTop, textLeft)] *)
Definition createTextBox (rowText : string) (textTop textLeft : JsNum) : Node :=
  NNew "Text"
    [ NString rowText;
      NObject [ ("top", NNumber textTop);
                ("left", NNumber textLeft);
                ("fill", NString listTextColor);
                ("fontFamily", NString listFontFamily);
                ("fontSize", NNumber fontSize);
                ("textAlign", NString "left");
                ("originX", NString "left");
                ("originY", NString "center") ] ].

(** [createPolylineShadow(mainPl, YOffset)]; [points] is [mainPl.points]. *)
Definition createPolylineShadow (points : list (JsNum * JsNum)) (mainPl : Node)
    (YOffset : JsNum) : Node :=
  NNew "Polyline"
    [ NArray (map (fun p => point p.1 (p.2 + YOffset)) points);
      NObject [ ("fill", NString "#000000"); ("clipPath", mainPl) ] ].

Definition sizerTextBox : Node :=
  createTextBox (truncate (repeatChar "a" 100)) (lit 0) (lit 0).

Definition rowHeight : JsNum := heightOf env sizerTextBox + newPaddingV * lit 2.

(** The Y centre of the top-most row. *)
Definition highestY : JsNum :=
  height / lit 2 - (rowHeight / lit 2) * (ofNat (length listText) - lit 1).

Definition listItems : list Item :=
  imap (fun index curText =>
          mkItem (truncate (trim curText))
                 (highestY + ofNat index * rowHeight)
                 (Js.round
                    ((width
                      - (widthOf env sizerTextBox + leftHPadding + rightHPadding
                         + rightAngledPadding))
                     / lit 2)))
       listText.

Definition bgFadeInStartProgress : JsNum := listStartTime / duration.
Definition bgFadeOutFinishProgress : JsNum := listFinishTime / duration.
Definition bgOpacitySpeed : JsNum := duration / (listFadeDuration * lit 0.25).
Definition bgExpansionSpeed : JsNum := duration / (listFadeDuration * lit 0.75).
Definition staggerScaler : JsNum :=
  getScaler (ofNat (length listText)) (ofNat maxItems) (lit 4) (lit 0.7).
Definition staggerTime : JsNum := (lit 0.3 / duration) * staggerScaler.

(** One turn of the loop of [onRender], for the item at index [i];
    [lastBottomY] is [None] while the variable is [undefined]. *)
Definition listRow (progress : JsNum) (lastBottomY : option JsNum) (i : nat)
    (item : Item) : Row :=
  let ItemBgFadeInStartProgress := (bgFadeInStartProgress + ofNat i * staggerTime)%jsnum in
  let ItemBgFadeOutFinishProgress :=
    (bgFadeOutFinishProgress - ofNat i * staggerTime)%jsnum in
  let bgFadeOutLevel := ((ItemBgFadeOutFinishProgress - progress) * bgOpacitySpeed)%jsnum in
  let bgOpacity :=
    clampedEaseInOutCubic env
      (if Js.gt bgFadeOutLevel (lit 1)
       then (progress - ItemBgFadeInStartProgress) * bgOpacitySpeed
       else bgFadeOutLevel) in
  let bgContractionLevel :=
    ((ItemBgFadeOutFinishProgress - progress) * bgExpansionSpeed)%jsnum in
  let bgExpansion :=
    (if Js.gt bgContractionLevel (lit 1)
     then lit 0.05
          + lit 0.95
            * clampedEaseInOutCubic env
                ((progress - ItemBgFadeInStartProgress) * bgExpansionSpeed)
     else lit 0.05 + lit 0.95 * clampedEaseInOutCubic env bgContractionLevel)%jsnum in
  let textBox :=
    createTextBox (itemText item) (itemTop item) (itemLeft item + leftHPadding) in
  let textBox := NSet textBox "opacity" (NNumber bgOpacity) in
  let plTopY :=
    match lastBottomY with
    | None => Js.round (itemTop item - heightOf env sizerTextBox / lit 2 - newPaddingV)
    | Some y => y
    end in
  let plBottomY := Js.round (plTopY + rowHeight) in
  let plLeftX := itemLeft item in
  let plBotRightX :=
    Js.round (plLeftX + (widthOf env textBox + leftHPadding + rightHPadding) * bgExpansion) in
  let points :=
    [ (plLeftX, plTopY);
      (Js.round (plBotRightX + rightAngledPadding), plTopY);
      (plBotRightX, plBottomY);
      (plLeftX, plBottomY) ] in
  let polyline :=
    NNew "Polyline"
      [ NArray (map (fun p => point p.1 p.2) points);
        NObject [ ("fill", NString listBackgroundColor);
                  ("absolutePositioned", NBoolean true);
                  ("inverted", NBoolean true);
                  ("opacity", NNumber bgOpacity) ] ] in
  let plYOffset := ((plBottomY - plTopY) * lit 0.2)%jsnum in
  let polylineUnder := createPolylineShadow points polyline plYOffset in
  let polylineUnder := NSet polylineUnder "opacity" (NNumber bgOpacity) in
  let textBox :=
    NSet textBox "clipPath"
      (NNew "Polyline"
         [ NArray (map (fun p => point p.1 p.2) points);
           NObject [ ("absolutePositioned", NBoolean true) ] ]) in
  mkRow polylineUnder polyline textBox plTopY plBottomY plLeftX plBotRightX
        bgOpacity bgExpansion.

(** The turns of the loop from index [i] on; [lastBottomY = plBottomY] at
    the end of each turn. *)
Fixpoint listRows (progress : JsNum) (lastBottomY : option JsNum) (i : nat)
    (items : list Item) : list Row :=
  match items with
  | [] => []
  | item :: rest =>
      let row := listRow progress lastBottomY i item in
      row :: listRows progress (Some (plBottomY row)) (S i) rest
  end.

(** [onRender(progress, canvas)] of the list source. *)
Definition onRender (progress : JsNum) (canvas : Scene) : Scene :=
  foldl (fun canvas row =>
           add (add (add canvas (polylineUnder row)) (polyline row)) (textBox row))
        canvas (listRows progress None 0 listItems).

(** [listFrameSource({ width, height, duration, params })]: the array
    [params.text] as the source leaves it, and [onRender].  The values the
    source prints are left out. *)
Definition listFrameSource : list string * (JsNum -> Scene -> Scene) :=
  (listText, onRender).

End Source.

End TextList.

End Fabric.

(** A sample of the collaborators of the fabric sources: linear easing,
    clamped to [0, 1] where the name says so, and objects 100 wide and 20
    high. *)
Module FabricSample.

Definition clamp (x : JsNum) : JsNum := Js.max (lit 0) (Js.min x (lit 1)).

Definition env : Fabric.Env Sample.World :=
  Fabric.mkEnv Sample.World
    (fun x => x) clamp clamp
    (fun position width height =>
       Fabric.mkPositionProps (Fabric.NNumber (Js.div width (lit 2)))
         (Fabric.NNumber (Js.div height (lit 2)))
         (Fabric.NString "center") (Fabric.NString "center"))
    (fun path => ret (Fabric.NString path))
    (fun _ => lit 100)
    (fun _ => lit 20).


End FabricSample.

(** ** Further notions: the engine *)

(** The own keys of the two object literals of [createFrameSource]. *)
Definition registeredTags : list string :=
  [ "fabric"; "image"; "image-overlay"; "title"; "subtitle"; "linear-gradient";
    "radial-gradient"; "fill-color"; "news-title"; "slide-in-text";
    "video"; "gl"; "canvas" ].

(** What [readNextFrame] returns for a canvas without drawables. *)
Definition emptyFrame {World : Type} (ext : Externals World) (width height : nat)
    (lastCanvasObjects : option string) : FrameResult :=
  if bool_decide (lastCanvasObjects = Some "[]")
  then Pair None "[]"
  else Pair (Some (renderFabricCanvas ext (createFabricCanvas width height))) "[]".

Definition emptyFrameEvents (lastCanvasObjects : option string) : list Event :=
  if bool_decide (lastCanvasObjects = Some "[]")
  then [EvStringify; EvClear; EvDispose]
  else [EvStringify; EvRasterize].

(** A layer frame source of the sample environment whose render throws. *)
Definition failingSource : LayerFrameSource Sample.World :=
  mkLayerFrameSource (mkLayer "video" (lit 0) (lit 10) None)
    (FrameSource.mk (fun _ _ => throw (Thrown "decode failed")) (ret tt)).

(** A clip whose second layer has the tag of an inherited member. *)
Definition inheritedTagClip : Clip :=
  mkClip [ mkLayer "fill-color" (lit 0) (lit 10) (Some "#ff0000");
           mkLayer "constructor" (lit 0) (lit 10) None ] (lit 10).

(** An environment over logged states, for reading frames from given
    sources: the serialization and the rasterizer of the sample
    environment.  It builds no source. *)
Definition loggedExternals : Externals (Logged Sample.World) :=
  mkExternals (Logged Sample.World)
    (fun _ => throw (Thrown "not built here"))
    (fun _ _ => throw (Thrown "not built here"))
    (fun _ => throw (Thrown "not built here"))
    (paintCanvas opaquePainter)
    Sample.toJSON
    (fun _ => throw (Thrown "not built here"))
    (fun _ => throw (Thrown "not built here"))
    (fun _ => throw (Thrown "not built here"))
    (fun _ => throw (Thrown "not built here"))
    (fun _ => throw (Thrown "not built here"))
    (fun _ => throw (Thrown "not built here"))
    (fun _ => throw (Thrown "not built here"))
    (fun _ => throw (Thrown "not built here"))
    (fun _ => throw (Thrown "not built here"))
    (fun _ => throw (Thrown "not built here"))
    (fun _ => throw (Thrown "not built here")).


Definition backwardsLayer : Layer :=
  mkLayer "fill-color" (lit 5) (lit (-2)) (Some "#ff0000").

Definition tinyStartLayer : Layer :=
  mkLayer "fill-color" minValue (lit 4) (Some "#ff0000").



(** * Proofs *)

(** ** Binary64 arithmetic *)

Section Floats.
Local Open Scope Z_scope.



Lemma digits2_pos_bounds (m : positive) :
  2 ^ (Zpos (digits2_pos m) - 1) <= Zpos m < 2 ^ Zpos (digits2_pos m).
Proof.
  induction m as [m IH|m IH|]; cbn [digits2_pos].
  - rewrite Pos2Z.inj_succ.
    replace (Z.succ (Zpos (digits2_pos m)) - 1) with (Z.succ (Zpos (digits2_pos m) - 1)) by lia.
    rewrite !Z.pow_succ_r by lia. lia.
  - rewrite Pos2Z.inj_succ.
    replace (Z.succ (Zpos (digits2_pos m)) - 1) with (Z.succ (Zpos (digits2_pos m) - 1)) by lia.
    rewrite !Z.pow_succ_r by lia. lia.
  - cbn. lia.
Qed.

Lemma iter_xO_pow (m d : positive) : Zpos (Pos.iter xO m d) = Zpos m * 2 ^ Zpos d.
Proof.
  induction d as [|d IH] using Pos.peano_ind.
  - cbn. lia.
  - rewrite Pos.iter_succ, Pos2Z.inj_succ, Z.pow_succ_r by lia.
    rewrite Pos2Z.inj_xO, IH. lia.
Qed.

Lemma shl_align_value (m : positive) (e ez : Z) :
  ez <= e -> Zpos (fst (shl_align m e ez)) = Zpos m * 2 ^ (e - ez).
Proof.
  intros Hle. unfold shl_align.
  destruct (ez - e) as [|d|d] eqn:Hd.
  - replace (e - ez) with 0 by lia. cbn [fst]. lia.
  - lia.
  - replace (e - ez) with (Zpos d) by lia. cbn [fst]. apply iter_xO_pow.
Qed.

(** The mantissa of a number in canonical form has at most 53 digits, and
    exactly 53 unless the exponent is the least one. *)
Lemma bounded_digits (m : positive) (e : Z) :
  bounded Js.prec Js.emax m e = true ->
  -1074 <= e /\ Zpos (digits2_pos m) <= 53
  /\ (-1074 < e -> Zpos (digits2_pos m) = 53).
Proof.
  unfold bounded, canonical_mantissa, fexp, emin, Js.prec, Js.emax.
  intros H. apply andb_true_iff in H as [H _]. apply Z.eqb_eq in H. lia.
Qed.

Lemma bounded_below (mx my : positive) (ex ey : Z) :
  bounded Js.prec Js.emax mx ex = true -> bounded Js.prec Js.emax my ey = true ->
  ex < ey -> Zpos mx < Zpos my * 2 ^ (ey - ex).
Proof.
  intros Hx Hy Hlt.
  apply bounded_digits in Hx as (Hex & Hdx & _).
  apply bounded_digits in Hy as (_ & _ & Hdy).
  pose proof (digits2_pos_bounds mx) as [_ Hmx].
  pose proof (digits2_pos_bounds my) as [Hmy _].
  rewrite Hdy in Hmy by lia.
  assert (Zpos mx < 2 ^ 53).
  { eapply Z.lt_le_trans; [exact Hmx|]. apply Z.pow_le_mono_r; lia. }
  assert (2 ^ 1 <= 2 ^ (ey - ex)) by (apply Z.pow_le_mono_r; lia).
  change (2 ^ (53 - 1)) with (2 ^ 52) in Hmy.
  change (2 ^ 1) with 2 in *. change (2 ^ 53) with (2 * 2 ^ 52) in *.
  nia.
Qed.

(** The comparison of two finite numbers in canonical form is the
    comparison of the integers that their difference is computed from. *)
Lemma SFcompare_aligned (sx sy : bool) (mx my : positive) (ex ey : Z) (c : comparison) :
  bounded Js.prec Js.emax mx ex = true -> bounded Js.prec Js.emax my ey = true ->
  SFcompare (S754_finite sx mx ex) (S754_finite sy my ey) = Some c ->
  (cond_Zopp sx (Zpos (fst (shl_align mx ex (Z.min ex ey))))
   ?= cond_Zopp sy (Zpos (fst (shl_align my ey (Z.min ex ey))))) = c.
Proof.
  intros Hx Hy Hc.
  rewrite !shl_align_value by lia.
  assert (Hpx : 0 < Zpos mx * 2 ^ (ex - Z.min ex ey)).
  { apply Z.mul_pos_pos; [lia|]. apply Z.pow_pos_nonneg; lia. }
  assert (Hpy : 0 < Zpos my * 2 ^ (ey - Z.min ex ey)).
  { apply Z.mul_pos_pos; [lia|]. apply Z.pow_pos_nonneg; lia. }
  assert (Hmag : match ex ?= ey with
                 | Lt => Zpos mx * 2 ^ (ex - Z.min ex ey) < Zpos my * 2 ^ (ey - Z.min ex ey)
                 | Gt => Zpos my * 2 ^ (ey - Z.min ex ey) < Zpos mx * 2 ^ (ex - Z.min ex ey)
                 | Eq => Zpos mx * 2 ^ (ex - Z.min ex ey) = Zpos mx
                         /\ Zpos my * 2 ^ (ey - Z.min ex ey) = Zpos my
                 end).
  { destruct (Z.compare_spec ex ey) as [He|He|He].
    - subst. rewrite Z.min_id, Z.sub_diag. cbn. lia.
    - rewrite Z.min_l by lia. rewrite Z.sub_diag, Z.mul_1_r.
      by apply bounded_below.
    - rewrite Z.min_r by lia. rewrite Z.sub_diag, Z.mul_1_r.
      by apply bounded_below. }
  cbn in Hc. injection Hc as <-.
  destruct sx, sy; cbn [cond_Zopp].
  - destruct (ex ?= ey).
    + destruct Hmag as [-> ->]. rewrite Pos.compare_cont_spec. unfold Pos.switch_Eq.
      destruct (Pos.compare_spec mx my) as [E|E|E]; cbn [CompOpp];
        [apply Z.compare_eq_iff | apply Z.compare_gt_iff | apply Z.compare_lt_iff]; lia.
    + apply Z.compare_gt_iff. lia.
    + apply Z.compare_lt_iff. lia.
  - apply Z.compare_lt_iff. lia.
  - apply Z.compare_gt_iff. lia.
  - destruct (ex ?= ey).
    + destruct Hmag as [-> ->]. rewrite Pos.compare_cont_spec. unfold Pos.switch_Eq.
      destruct (Pos.compare_spec mx my) as [E|E|E];
        [apply Z.compare_eq_iff | apply Z.compare_lt_iff | apply Z.compare_gt_iff]; lia.
    + apply Z.compare_lt_iff. lia.
    + apply Z.compare_gt_iff. lia.
Qed.

Lemma iter_pos_invariant {A : Type} (P : A -> Prop) (f : A -> A) :
  (forall x, P x -> P (f x)) ->
  forall (n : positive) (x : A), P x -> P (SpecFloat.iter_pos f n x).
Proof.
  intros Hf. induction n as [n IH|n IH|]; intros x Hx; cbn; auto.
Qed.

Lemma shr_1_nonneg (mrs : shr_record) : 0 <= shr_m mrs -> 0 <= shr_m (shr_1 mrs).
Proof.
  destruct mrs as [m r s]. cbn [shr_m].
  destruct m as [|[p|p|]|[p|p|]]; cbn; lia.
Qed.

Lemma shr_fexp_nonneg (m e : Z) (l : location) :
  0 <= m -> 0 <= shr_m (fst (shr_fexp Js.prec Js.emax m e l)).
Proof.
  intros Hm. unfold shr_fexp, shr.
  assert (H0 : 0 <= shr_m (shr_record_of_loc m l)) by (by destruct l as [|[]]).
  destruct (fexp Js.prec Js.emax (Zdigits2 m + e) - e) as [|p|p]; cbn [fst]; try exact H0.
  apply (iter_pos_invariant (fun mrs => 0 <= shr_m mrs)); [apply shr_1_nonneg|exact H0].
Qed.

Lemma round_nearest_even_nonneg (m : Z) (l : location) :
  0 <= m -> 0 <= round_nearest_even m l.
Proof.
  intros Hm. destruct l as [|[]]; cbn; try destruct (Z.even m); lia.
Qed.

(** Rounding keeps the sign it is given and does not make a NaN. *)
Lemma binary_round_aux_signBit (s : bool) (m e : Z) (l : location) :
  0 <= m -> Js.signBit (binary_round_aux Js.prec Js.emax s m e l) = Some s.
Proof.
  intros Hm. unfold binary_round_aux.
  pose proof (shr_fexp_nonneg m e l Hm) as H1.
  destruct (shr_fexp Js.prec Js.emax m e l) as [mrs' e']. cbn [fst] in H1.
  pose proof (shr_fexp_nonneg _ e' loc_Exact
                (round_nearest_even_nonneg _ (loc_of_shr_record mrs') H1)) as H2.
  destruct (shr_fexp Js.prec Js.emax _ e' loc_Exact) as [mrs'' e'']. cbn [fst] in H2.
  destruct (shr_m mrs'') as [|p|p]; [reflexivity| |lia].
  by destruct (e'' <=? Js.emax - Js.prec).
Qed.

Lemma binary_normalize_signBit (z e : Z) :
  z <> 0 ->
  Js.signBit (binary_normalize Js.prec Js.emax z e false) = Some (z <? 0).
Proof.
  intros Hz. destruct z as [|p|p]; [done| |]; cbn [binary_normalize]; unfold binary_round.
  - destruct (shl_align p e _) as [mz ez]. by apply binary_round_aux_signBit.
  - destruct (shl_align p e _) as [mz ez]. by apply binary_round_aux_signBit.
Qed.

(** [x - y] is negative when [x < y] and positive when [x > y]. *)
Lemma Js_sub_signBit (x y : JsNum) :
  Js.valid x = true -> Js.valid y = true ->
  (Js.lt x y = true -> Js.signBit (Js.sub x y) = Some true)
  /\ (Js.lt y x = true -> Js.signBit (Js.sub x y) = Some false).
Proof.
  intros Hx Hy.
  destruct x as [sx|sx| |sx mx ex], y as [sy|sy| |sy my ey];
    try (split; discriminate);
    try (destruct sx; split; (discriminate || reflexivity));
    try (destruct sy; split; (discriminate || reflexivity));
    try (destruct sx, sy; split; (discriminate || reflexivity)).
  unfold Js.lt, SFltb, Js.sub, SFsub.
  destruct (SFcompare (S754_finite sx mx ex) (S754_finite sy my ey)) as [c|] eqn:Hc;
    [|discriminate Hc].
  pose proof (SFcompare_aligned sx sy mx my ex ey c Hx Hy Hc) as Hal.
  assert (Hc' : SFcompare (S754_finite sy my ey) (S754_finite sx mx ex) = Some (CompOpp c)).
  { cbn in Hc |- *. injection Hc as <-. f_equal.
    rewrite (Z.compare_antisym ey ex), !Pos.compare_cont_spec, (Pos.compare_antisym my mx).
    unfold Pos.switch_Eq.
    destruct sx, sy, (ey ?= ex), (my ?= mx)%positive; reflexivity. }
  rewrite Hc'.
  split; intros Hlt.
  - destruct c; try discriminate.
    set (X := cond_Zopp sx _) in *. set (Y := cond_Zopp sy _) in *.
    assert (X < Y) by (by apply Z.compare_lt_iff).
    rewrite binary_normalize_signBit by lia. f_equal. apply Z.ltb_lt. lia.
  - destruct c; try discriminate.
    set (X := cond_Zopp sx _) in *. set (Y := cond_Zopp sy _) in *.
    assert (Y < X) by (by apply Z.compare_gt_iff).
    rewrite binary_normalize_signBit by lia. f_equal. apply Z.ltb_ge. lia.
Qed.

(** A quotient is a NaN or has the sign of the dividend times that of the
    divisor. *)
Lemma Js_div_signBit (x y : JsNum) (sx sy : bool) :
  Js.signBit x = Some sx -> Js.signBit y = Some sy ->
  Js.div x y = S754_nan \/ Js.signBit (Js.div x y) = Some (xorb sx sy).
Proof.
  intros Hx Hy.
  destruct x as [s1|s1| |s1 m1 e1], y as [s2|s2| |s2 m2 e2];
    try discriminate; cbn in Hx, Hy; simplify_eq; cbn; auto.
  right. unfold SFdiv_core_binary.
  set (m' := match _ - _ - _ with 0 => _ | Z.pos _ => _ | Z.neg _ => _ end).
  assert (Hm' : 0 <= m').
  { subst m'. destruct (_ - _ - _); try lia. apply Z.shiftl_nonneg. lia. }
  pose proof (Z.div_pos m' (Zpos m2) Hm' ltac:(lia)) as Hq.
  unfold Z.div in Hq.
  change (IntDef.Z.div_eucl m' (Zpos m2)) with (Z.div_eucl m' (Zpos m2)).
  destruct (Z.div_eucl m' (Zpos m2)) as [q r].
  by apply binary_round_aux_signBit.
Qed.

End Floats.

(** ** The activation window *)

(** The window test on a progress that is a NaN or carries a sign. *)
Lemma unit_interval_negative (q : JsNum) :
  q = S754_nan \/ Js.signBit q = Some true ->
  Js.ge q (lit 0) && Js.le q (lit 1) = true -> q = S754_zero true.
Proof.
  intros [->|Hs]; [discriminate|].
  destruct q as [s|s| |s m e]; cbn in Hs; simplify_eq; [reflexivity|discriminate..].
Qed.



(** A layer whose duration is a zero or a NaN is never due. *)
Lemma shouldDrawLayer_zero (time : JsNum) (l : Layer) :
  layerDuration l = S754_nan \/ (exists s, layerDuration l = S754_zero s) ->
  shouldDrawLayer time l = false.
Proof.
  unfold shouldDrawLayer, offsetProgress.
  intros [Hd|[s Hd]]; rewrite Hd.
  - by destruct (Js.sub time (start l)).
  - by destruct (Js.sub time (start l)) as [[]|[]| |[] ? ?], s.
Qed.

(** Before the start of a layer of positive duration, and after the start
    of a layer of negative duration, the progress is a NaN or carries the
    minus sign: the layer is due only if it is the negative zero. *)
Lemma shouldDrawLayer_before (time : JsNum) (l : Layer) :
  Js.valid time = true -> Js.valid (start l) = true ->
  (Js.lt time (start l) = true /\ Js.lt (lit 0) (layerDuration l) = true)
  \/ (Js.lt (start l) time = true /\ Js.lt (layerDuration l) (lit 0) = true) ->
  shouldDrawLayer time l = true -> offsetProgress time l = S754_zero true.
Proof.
  intros Ht Hs Hcase. apply unit_interval_negative. unfold offsetProgress.
  destruct (Js_sub_signBit time (start l) Ht Hs) as [Hlt Hgt].
  destruct Hcase as [[H1 H2]|[H1 H2]].
  - assert (Hd : Js.signBit (layerDuration l) = Some false).
    { by destruct (layerDuration l) as [[]|[]| |[] ? ?]. }
    destruct (Js_div_signBit _ _ _ _ (Hlt H1) Hd); auto.
  - assert (Hd : Js.signBit (layerDuration l) = Some true).
    { by destruct (layerDuration l) as [[]|[]| |[] ? ?]. }
    destruct (Js_div_signBit _ _ _ _ (Hgt H1) Hd); auto.
Qed.

(** ** Traces *)

Lemma renderCalls_app (t1 t2 : list Event) :
  renderCalls (t1 ++ t2) = renderCalls t1 ++ renderCalls t2.
Proof. apply omap_app. Qed.

(** Membership in the due calls: the layer at that index, due, with its
    progress. *)
Lemma elem_of_activeCalls (time : JsNum) (ls : list Layer) :
  forall (k i : nat) (p : JsNum),
    (i, p) ∈ activeCalls time k ls <->
    exists l, (k <= i)%nat /\ ls !! (i - k)%nat = Some l
              /\ shouldDrawLayer time l = true /\ p = offsetProgress time l.
Proof.
  induction ls as [|l ls IH]; intros k i p; simpl.
  - split; [intros H; inversion H | intros (l & _ & H & _); discriminate].
  - rewrite elem_of_app, IH. split.
    + intros [H | (l' & Hk & Hl & Hd & Hp)].
      * destruct (shouldDrawLayer time l) eqn:E; [|inversion H].
        apply list_elem_of_singleton in H. injection H as -> ->.
        exists l. rewrite Nat.sub_diag. auto.
      * exists l'. split; [lia|]. split; [|auto].
        replace (i - k)%nat with (S (i - S k)) by lia. exact Hl.
    + intros (l' & Hk & Hl & Hd & Hp).
      destruct (decide (i = k)) as [->|Hne].
      * rewrite Nat.sub_diag in Hl. injection Hl as ->. left.
        rewrite Hd, Hp. apply list_elem_of_singleton. reflexivity.
      * right. exists l'. split; [lia|]. split; [|auto].
        replace (i - k)%nat with (S (i - S k)) in Hl by lia. exact Hl.
Qed.

(** ** The monad *)

Lemma bind_ok {St A B : Type} (m : M St A) (k : A -> M St B) (s s' : St) (a : A) :
  m s = (Ok a, s') -> bind m k s = k a s'.
Proof. intros H. unfold bind. by rewrite H. Qed.

Lemma bind_throw {St A B : Type} (m : M St A) (k : A -> M St B) (s s' : St) (e : JsError) :
  m s = (Throw e, s') -> bind m k s = (Throw e, s').
Proof. intros H. unfold bind. by rewrite H. Qed.

Lemma emit_run {World : Type} (e : Event) (s : Run World) :
  emit e s = (Ok tt, (fst s, snd s ++ [e])).
Proof. reflexivity. Qed.

Lemma lift_run {World A : Type} (m : M World A) (s : Run World) :
  lift m s = (fst (m (fst s)), (snd (m (fst s)), snd s)).
Proof. unfold lift. by destruct (m (fst s)). Qed.

(** ** The loop over the layers *)

Section Loop.
Context {World : Type}.
Variables (w h count : nat) (time : JsNum).

(** One turn of the loop for a layer that is not due. *)
Lemma renderLayers_skip (index : nat) (lfs : LayerFrameSource World)
    (rest : list (LayerFrameSource World)) (canvas : Canvas) :
  shouldDrawLayer time (layer lfs) = false ->
  renderLayers w h count time index (lfs :: rest) canvas
  = renderLayers w h count time (S index) rest canvas.
Proof. intros H. simpl. by rewrite H. Qed.

(** One turn of the loop for a layer that is due, by what its render
    returns. *)
Lemma renderLayers_draw (index : nat) (lfs : LayerFrameSource World)
    (rest : list (LayerFrameSource World)) (canvas canvas' : Canvas)
    (s : Run World) (rgba : option Buffer) (world' : World) :
  shouldDrawLayer time (layer lfs) = true ->
  FrameSource.readNextFrame (frameSource lfs) (offsetProgress time (layer lfs))
    canvas (fst s) = (Ok (rgba, canvas'), world') ->
  let rendered := snd s ++ [EvRender index (offsetProgress time (layer lfs))] in
  renderLayers w h count time index (lfs :: rest) canvas s
  = match rgba with
    | Some rgba =>
        if Nat.eqb count 1 then (Ok (Returned rgba), (world', rendered))
        else renderLayers w h count time (S index) rest
               (canvas_add (rgbaToFabricImage w h rgba) canvas')
               (world', rendered ++ [EvImage])
    | None =>
        renderLayers w h count time (S index) rest canvas' (world', rendered)
    end.
Proof.
  intros Hd Hr. simpl. rewrite Hd.
  unfold bind at 1. rewrite emit_run.
  unfold bind at 1. rewrite lift_run. simpl. rewrite Hr. simpl.
  destruct rgba as [rgba|]; [|reflexivity].
  destruct (Nat.eqb count 1); reflexivity.
Qed.

Lemma renderLayers_draw_throw (index : nat) (lfs : LayerFrameSource World)
    (rest : list (LayerFrameSource World)) (canvas : Canvas)
    (s : Run World) (e : JsError) (world' : World) :
  shouldDrawLayer time (layer lfs) = true ->
  FrameSource.readNextFrame (frameSource lfs) (offsetProgress time (layer lfs))
    canvas (fst s) = (Throw e, world') ->
  renderLayers w h count time index (lfs :: rest) canvas s
  = (Throw e, (world', snd s ++ [EvRender index (offsetProgress time (layer lfs))])).
Proof.
  intros Hd Hr. simpl. rewrite Hd.
  unfold bind at 1. rewrite emit_run.
  unfold bind at 1. rewrite lift_run. simpl. rewrite Hr. reflexivity.
Qed.

(** The render calls of a run of the loop are the due calls, in order, up
    to where the run stopped; all of them when the loop ran to its end. *)
Lemma renderLayers_trace (rest : list (LayerFrameSource World)) :
  forall (index : nat) (canvas : Canvas) (s s' : Run World) (r : Outcome LoopExit),
    renderLayers w h count time index rest canvas s = (r, s') ->
    exists added,
      snd s' = snd s ++ added
      /\ renderCalls added `prefix_of` activeCalls time index (map layer rest)
      /\ match r with
         | Ok (Completed _) =>
             renderCalls added = activeCalls time index (map layer rest)
         | Ok (Returned _) =>
             count = 1
             /\ ((length rest <= 1)%nat ->
                 renderCalls added = activeCalls time index (map layer rest))
         | Throw _ => True
         end.
Proof.
  induction rest as [|lfs rest IH]; intros index canvas s s' r Hrun.
  - injection Hrun as <- <-. exists []. rewrite app_nil_r. done.
  - destruct (shouldDrawLayer time (layer lfs)) eqn:Hd.
    + destruct (FrameSource.readNextFrame (frameSource lfs)
                  (offsetProgress time (layer lfs)) canvas (fst s))
        as [[[rgba canvas']|e] world'] eqn:Hr.
      * rewrite (renderLayers_draw _ _ _ _ _ _ _ _ Hd Hr) in Hrun.
        cbn [map activeCalls]. rewrite Hd.
        destruct rgba as [rgba|].
        -- destruct (Nat.eqb count 1) eqn:Hc.
           ++ injection Hrun as <- <-. eexists. split; [reflexivity|].
              cbn. split; [apply prefix_cons, prefix_nil|].
              split; [by apply Nat.eqb_eq|].
              intros Hlen. destruct rest; [reflexivity|simpl in Hlen; lia].
           ++ apply IH in Hrun as (added & Ht & Hp & Hm). cbn [snd] in Ht.
              exists (EvRender index (offsetProgress time (layer lfs)) :: EvImage :: added).
              split; [rewrite Ht, <- !app_assoc; reflexivity|].
              cbn. split; [by apply prefix_cons|].
              destruct r as [[c|b]|e]; [by f_equal| |done].
              destruct Hm as [-> _]. discriminate.
        -- apply IH in Hrun as (added & Ht & Hp & Hm). cbn [snd] in Ht.
           exists (EvRender index (offsetProgress time (layer lfs)) :: added).
           split; [rewrite Ht, <- !app_assoc; reflexivity|].
           cbn. split; [by apply prefix_cons|].
           destruct r as [[c|b]|e]; [by f_equal| |done].
           destruct Hm as [Hc Hm]. split; [done|].
           intros Hlen. f_equal. apply Hm. simpl in Hlen. lia.
      * rewrite (renderLayers_draw_throw _ _ _ _ _ _ _ Hd Hr) in Hrun.
        injection Hrun as <- <-. eexists. split; [reflexivity|].
        cbn [map activeCalls]. rewrite Hd. cbn.
        split; [apply prefix_cons, prefix_nil|done].
    + rewrite (renderLayers_skip _ _ _ _ Hd) in Hrun.
      apply IH in Hrun as (added & Ht & Hp & Hm).
      exists added. cbn [map activeCalls]. rewrite Hd.
      split; [done|]. split; [done|].
      destruct r as [[c|b]|e]; [done| |done].
      destruct Hm as [Hc Hm]. split; [done|].
      intros Hlen. apply Hm. simpl in Hlen. lia.
Qed.

End Loop.

(** ** Comparing with the last frame *)

Lemma JSON_stringify_truthy (f : FabricObject -> string) (objs : list FabricObject) :
  truthy (Some (JSON_stringify f objs)) = true.
Proof. reflexivity. Qed.

Section Frame.
Context {World : Type} (ext : Externals World).

Lemma compareAndRender_changed (last : option string) (canvas : Canvas) (s : Run World) :
  last <> Some (JSON_stringify (toJSON ext) (_objects canvas)) ->
  compareAndRender ext last canvas s
  = (Ok (Pair (Some (renderFabricCanvas ext canvas))
              (JSON_stringify (toJSON ext) (_objects canvas))),
     (fst s, snd s ++ [EvStringify; EvRasterize])).
Proof.
  intros Hne. unfold compareAndRender.
  unfold bind at 1. rewrite emit_run.
  rewrite bool_decide_eq_false_2 by congruence. rewrite andb_false_r.
  unfold bind, emit, ret. cbn. by rewrite <- app_assoc.
Qed.

Lemma compareAndRender_same (canvas : Canvas) (s : Run World) :
  compareAndRender ext (Some (JSON_stringify (toJSON ext) (_objects canvas))) canvas s
  = (Ok (Pair None (JSON_stringify (toJSON ext) (_objects canvas))),
     (fst s, snd s ++ [EvStringify; EvClear; EvDispose])).
Proof.
  unfold compareAndRender.
  unfold bind at 1. rewrite emit_run.
  rewrite bool_decide_eq_true_2 by reflexivity.
  rewrite JSON_stringify_truthy.
  unfold bind, emit, ret. cbn. by rewrite <- !app_assoc.
Qed.

(** Whatever the last key, the part after the loop returns a pair and
    calls no render. *)
Lemma compareAndRender_trace (last : option string) (canvas : Canvas) (s : Run World) :
  exists rgba added,
    compareAndRender ext last canvas s
    = (Ok (Pair rgba (JSON_stringify (toJSON ext) (_objects canvas))),
       (fst s, snd s ++ added))
    /\ renderCalls added = [].
Proof.
  unfold compareAndRender. unfold bind at 1. rewrite emit_run.
  destruct (truthy last && bool_decide _);
    unfold bind, emit, ret; cbn; rewrite <- !app_assoc; eauto.
Qed.

Lemma readNextFrame_loop (w h : nat) (sources : list (LayerFrameSource World))
    (time : JsNum) (last : option string) (s : Run World) :
  readNextFrame ext w h sources time last s
  = match renderLayers w h (length sources) time 0 sources (createFabricCanvas w h) s with
    | (Ok (Returned rgba), s') => (Ok (Bare rgba), s')
    | (Ok (Completed canvas), s') => compareAndRender ext last canvas s'
    | (Throw e, s') => (Throw e, s')
    end.
Proof.
  unfold readNextFrame, bind.
  destruct (renderLayers _ _ _ _ _ _ _ s) as [[[c|b]|e] s']; reflexivity.
Qed.

(** The render calls of a frame: a prefix of the due calls, and all of them
    when the frame is returned. *)
Lemma readNextFrame_trace (w h : nat) (sources : list (LayerFrameSource World))
    (time : JsNum) (last : option string) (s s' : Run World) (r : Outcome FrameResult) :
  readNextFrame ext w h sources time last s = (r, s') ->
  exists added,
    snd s' = snd s ++ added
    /\ renderCalls added `prefix_of` activeCalls time 0 (map layer sources)
    /\ match r with
       | Ok _ => renderCalls added = activeCalls time 0 (map layer sources)
       | Throw _ => True
       end.
Proof.
  rewrite readNextFrame_loop.
  destruct (renderLayers _ _ _ _ _ _ _ s) as [exit s1] eqn:Hloop.
  apply renderLayers_trace in Hloop as (added & Ht & Hp & Hm).
  destruct exit as [[c|b]|e].
  - destruct (compareAndRender_trace last c s1) as (rgba & more & -> & Hmore).
    intros [= <- <-]. exists (added ++ more). cbn [snd].
    rewrite Ht, app_assoc, renderCalls_app, Hmore, app_nil_r.
    split; [done|]. split; [done|]. exact Hm.
  - intros [= <- <-]. exists added. split; [done|]. split; [done|].
    destruct Hm as [Hc Hm]. apply Hm. lia.
  - intros [= <- <-]. exists added. done.
Qed.

End Frame.

(** ** The properties of the specification *)

(** C1, as amended.  When the engine holds exactly one layer frame source,
    that layer is due at the requested time and its render returns a raw
    buffer, [readNextFrame] returns that very buffer, bare; the only event
    of the call is the render itself, so the canvas is neither serialized
    nor rasterized and no cache key is computed or compared. *)
Theorem C1_single_source_shortcut {World : Type} (ext : Externals World)
    (w h : nat) (x : LayerFrameSource World) (time : JsNum) (last : option string)
    (s : Run World) (b : Buffer) (canvas' : Canvas) (world' : World) :
  shouldDrawLayer time (layer x) = true ->
  FrameSource.readNextFrame (frameSource x) (offsetProgress time (layer x))
    (createFabricCanvas w h) (fst s) = (Ok (Some b, canvas'), world') ->
  readNextFrame ext w h [x] time last s
  = (Ok (Bare b), (world', snd s ++ [EvRender 0 (offsetProgress time (layer x))])).
Proof.
  intros Hd Hr. rewrite readNextFrame_loop.
  rewrite (renderLayers_draw _ _ _ _ _ _ _ _ _ _ _ _ Hd Hr). reflexivity.
Qed.

(** C2.  Two calls whose loops leave canvases with the same object list,
    the first with a last key that is absent or different (it is the first
    occurrence of that list), the second with the key the first returned:
    the first rasterizes and returns the buffer with the key; the second
    returns [undefined] with the same key, and clears and disposes the
    canvas without rasterizing it.  The two times need not differ. *)
Theorem C2_unchanged_canvas {World : Type} (ext : Externals World)
    (w h : nat) (sources : list (LayerFrameSource World)) (t1 t2 : JsNum)
    (last1 : option string) (s1 s1' s2 s2' : Run World) (c1 c2 : Canvas) :
  renderLayers w h (length sources) t1 0 sources (createFabricCanvas w h) s1
    = (Ok (Completed c1), s1') ->
  renderLayers w h (length sources) t2 0 sources (createFabricCanvas w h) s2
    = (Ok (Completed c2), s2') ->
  _objects c1 = _objects c2 ->
  last1 <> Some (JSON_stringify (toJSON ext) (_objects c1)) ->
  let key := JSON_stringify (toJSON ext) (_objects c1) in
  readNextFrame ext w h sources t1 last1 s1
  = (Ok (Pair (Some (renderFabricCanvas ext c1)) key),
     (fst s1', snd s1' ++ [EvStringify; EvRasterize]))
  /\ readNextFrame ext w h sources t2 (Some key) s2
     = (Ok (Pair None key), (fst s2', snd s2' ++ [EvStringify; EvClear; EvDispose])).
Proof.
  intros H1 H2 Hobjs Hfirst key. split.
  - rewrite readNextFrame_loop, H1. by apply compareAndRender_changed.
  - rewrite readNextFrame_loop, H2. subst key. rewrite Hobjs.
    apply compareAndRender_same.
Qed.

(** The log of render calls that logging sources keep grows as the render
    events of the trace do. *)
Lemma map_layer_loggingFrom {World : Type} (sources : list (LayerFrameSource World)) :
  forall index, map layer (loggingFrom index sources) = map layer sources.
Proof.
  induction sources as [|x rest IH]; intros index; [reflexivity|].
  cbn. by rewrite IH.
Qed.

Lemma renderLayers_logging {World : Type} (w h count : nat) (time : JsNum)
    (rest : list (LayerFrameSource World)) :
  forall (index : nat) (canvas : Canvas) (world : World) (log : list (nat * JsNum))
         (trace : list Event) (r : Outcome LoopExit) (s' : Run (Logged World)),
    renderLayers w h count time index (loggingFrom index rest) canvas ((world, log), trace)
    = (r, s') ->
    exists added, snd s' = trace ++ added /\ snd (fst s') = log ++ renderCalls added.
Proof.
  induction rest as [|x rest IH]; intros index canvas world log trace r s' Hrun.
  - injection Hrun as <- <-. exists []. by rewrite !app_nil_r.
  - cbn [loggingFrom] in Hrun.
    destruct (shouldDrawLayer time (layer (logging index x))) eqn:Hd.
    + destruct (FrameSource.readNextFrame (frameSource x)
                  (offsetProgress time (layer x)) canvas world)
        as [[[rgba canvas']|e] world'] eqn:Hr.
      * assert (Hr' : FrameSource.readNextFrame (frameSource (logging index x))
                        (offsetProgress time (layer (logging index x))) canvas
                        (fst ((world, log), trace))
                      = (Ok (rgba, canvas'),
                         (world', log ++ [(index, offsetProgress time (layer x))]))).
        { cbn. by rewrite Hr. }
        rewrite (renderLayers_draw _ _ _ _ _ _ _ _ _ _ _ _ Hd Hr') in Hrun.
        cbn [layer logging snd] in Hrun.
        destruct rgba as [rgba|].
        -- destruct (Nat.eqb count 1).
           ++ injection Hrun as <- <-. eexists. split; [reflexivity|]. reflexivity.
           ++ apply IH in Hrun as (added & Ht & Hl).
              exists (EvRender index (offsetProgress time (layer x)) :: EvImage :: added).
              split; [by rewrite Ht, <- !app_assoc|].
              rewrite Hl. cbn. by rewrite <- app_assoc.
        -- apply IH in Hrun as (added & Ht & Hl).
           exists (EvRender index (offsetProgress time (layer x)) :: added).
           split; [by rewrite Ht, <- !app_assoc|].
           rewrite Hl. cbn. by rewrite <- app_assoc.
      * assert (Hr' : FrameSource.readNextFrame (frameSource (logging index x))
                        (offsetProgress time (layer (logging index x))) canvas
                        (fst ((world, log), trace))
                      = (Throw e, (world', log ++ [(index, offsetProgress time (layer x))]))).
        { cbn. by rewrite Hr. }
        rewrite (renderLayers_draw_throw _ _ _ _ _ _ _ _ _ _ _ Hd Hr') in Hrun.
        injection Hrun as <- <-. eexists. split; [reflexivity|]. reflexivity.
    + rewrite (renderLayers_skip _ _ _ _ _ _ _ _ Hd) in Hrun. by apply IH in Hrun.
Qed.

Lemma readNextFrame_logging {World : Type} (ext : Externals (Logged World))
    (w h : nat) (sources : list (LayerFrameSource World)) (time : JsNum)
    (last : option string) (world : World) (log : list (nat * JsNum))
    (trace : list Event) (r : Outcome FrameResult) (s' : Run (Logged World)) :
  readNextFrame ext w h (loggingFrom 0 sources) time last ((world, log), trace) = (r, s') ->
  exists calls,
    snd (fst s') = log ++ calls
    /\ calls `prefix_of` activeCalls time 0 (map layer sources)
    /\ match r with
       | Ok _ => calls = activeCalls time 0 (map layer sources)
       | Throw _ => True
       end.
Proof.
  intros Hrun.
  pose proof (readNextFrame_trace ext w h _ time last _ _ r Hrun) as (added & Ht & Hp & Hm).
  rewrite map_layer_loggingFrom in Hp, Hm.
  exists (renderCalls added). split; [|by split].
  rewrite readNextFrame_loop in Hrun.
  destruct (renderLayers _ _ _ _ _ _ _ _) as [exit s1] eqn:Hloop.
  apply renderLayers_logging in Hloop as (added1 & Ht1 & Hl1).
  destruct exit as [[c|b]|e].
  - destruct (compareAndRender_trace ext last c s1) as (rgba & more & Hc & Hmore).
    rewrite Hc in Hrun. injection Hrun as <- <-. cbn [fst snd] in *.
    rewrite Ht1, <- app_assoc in Ht. apply app_inv_head in Ht. subst added.
    by rewrite renderCalls_app, Hmore, app_nil_r.
  - injection Hrun as <- <-. rewrite Ht1 in Ht. apply app_inv_head in Ht. by subst.
  - injection Hrun as <- <-. rewrite Ht1 in Ht. apply app_inv_head in Ht. by subst.
Qed.


(** C4, as amended.  Let the sources log the calls of their render.  In
    any call of [readNextFrame], finished or aborted, the render of a layer
    is not called when its duration is a zero or a NaN.  When the duration
    is positive and the requested time is before the start, or the duration
    is negative and the time is after the start, the render is called only
    if the progress, which then is negative or a NaN, is the negative zero,
    and it is called with that. *)
Theorem C4_not_rendered_outside_window {World : Type} (ext : Externals (Logged World))
    (w h : nat) (sources : list (LayerFrameSource World)) (time : JsNum)
    (last : option string) (world : World) (log : list (nat * JsNum))
    (trace : list Event) (r : Outcome FrameResult) (s' : Run (Logged World))
    (i : nat) (x : LayerFrameSource World) :
  sources !! i = Some x ->
  readNextFrame ext w h (loggingFrom 0 sources) time last ((world, log), trace) = (r, s') ->
  exists calls,
    snd (fst s') = log ++ calls
    /\ ((layerDuration (layer x) = S754_nan
         \/ (exists s, layerDuration (layer x) = S754_zero s)) ->
        forall p : JsNum, (i, p) ∉ calls)
    /\ (Js.valid time = true -> Js.valid (start (layer x)) = true ->
        (Js.lt time (start (layer x)) = true
         /\ Js.lt (lit 0) (layerDuration (layer x)) = true)
        \/ (Js.lt (start (layer x)) time = true
            /\ Js.lt (layerDuration (layer x)) (lit 0) = true) ->
        forall p : JsNum, (i, p) ∈ calls -> p = S754_zero true).
Proof.
  intros Hx Hrun.
  apply readNextFrame_logging in Hrun as (calls & Hl & [more Hp] & _).
  exists calls. split; [exact Hl|].
  assert (Hin : forall p, (i, p) ∈ calls ->
                  shouldDrawLayer time (layer x) = true
                  /\ p = offsetProgress time (layer x)).
  { intros p Hin.
    assert (Hin' : (i, p) ∈ activeCalls time 0 (map layer sources))
      by (rewrite Hp; apply elem_of_app; by left).
    apply elem_of_activeCalls in Hin' as (l & _ & Hl' & Hdue & ->).
    rewrite Nat.sub_0_r, list_lookup_fmap, Hx in Hl'. injection Hl' as <-. done. }
  split.
  - intros Hzero p Hp'. apply Hin in Hp' as [Hdue _].
    by rewrite (shouldDrawLayer_zero time (layer x) Hzero) in Hdue.
  - intros Ht Hs Hcase p Hp'. apply Hin in Hp' as [Hdue ->].
    by apply shouldDrawLayer_before.
Qed.

(** ** Examples in the sample environment *)

Example built_rawClip : Sample.built Sample.rawClip [] = [Sample.rawSource].
Proof. reflexivity. Qed.

Example built_overlayClip :
  Sample.built Sample.overlayClip [] = [Sample.rawSource; Sample.overlaySource].
Proof. reflexivity. Qed.

Example built_redClip : Sample.built Sample.redClip [] = [Sample.redSource].
Proof. reflexivity. Qed.

(** The end-to-end scenario of the specification: a red fill-color layer at
    4 x 4 pixels, requested at time 5, gives an all-red buffer. *)
Example red_frame :
  fst (freshRun Sample.externals Sample.redClip 4 4 4 (lit 5) None ([], []))
  = Ok (Pair (Some (mjoin (replicate 16 [xff; x00; x00; xff])))
             "[{rect,0,4,4,#ff0000}]").
Proof. vm_compute. reflexivity. Qed.

(** The shortcut at work: a clip of one raw-buffer layer, requested at time
    5, returns the buffer of its source, bare. *)
Lemma C1_witness :
  shouldDrawLayer (lit 5) (layer Sample.rawSource) = true
  /\ FrameSource.readNextFrame (frameSource Sample.rawSource)
       (offsetProgress (lit 5) (layer Sample.rawSource)) (createFabricCanvas 2 1) []
     = (Ok (Some (repeat x80 8), createFabricCanvas 2 1), [])
  /\ readNextFrame Sample.externals 2 1 [Sample.rawSource] (lit 5) None ([], [])
     = (Ok (Bare (repeat x80 8)), ([], [EvRender 0 (lit 0.5)])).
Proof.
  split; [reflexivity|]. split; [reflexivity|].
  apply (C1_single_source_shortcut Sample.externals 2 1 Sample.rawSource (lit 5) None
           ([], []) (repeat x80 8) (createFabricCanvas 2 1) []); reflexivity.
Defined.

(** C1 as stated fails: in a clip of two layers of which only the first is
    due, and whose render returns a raw buffer, [readNextFrame] does not
    return the bare buffer; it serializes the canvas for the cache key and
    rasterizes it. *)
Lemma C1_counterexample :
  activeCalls (lit 1) 0 (layers Sample.overlayClip) = [(0%nat, lit 0.1)]
  /\ FrameSource.readNextFrame (frameSource Sample.rawSource) (lit 0.1)
       (createFabricCanvas 2 1) []
     = (Ok (Some (repeat x80 8), createFabricCanvas 2 1), [])
  /\ fst (freshRun Sample.externals Sample.overlayClip 2 1 4 (lit 1) None ([], []))
     <> Ok (Bare (repeat x80 8))
  /\ EvStringify
     ∈ snd (snd (freshRun Sample.externals Sample.overlayClip 2 1 4 (lit 1) None ([], [])))
  /\ EvRasterize
     ∈ snd (snd (freshRun Sample.externals Sample.overlayClip 2 1 4 (lit 1) None ([], []))).
Proof.
  split; [reflexivity|]. split; [reflexivity|].
  split; [vm_compute; discriminate|].
  split; vm_compute; set_solver.
Qed.

(** Two consecutive frames of a red fill-color layer, at times 1 and 2: the
    first is rasterized, the second, given the key of the first, is not. *)
Lemma C2_witness :
  let s1 : Run Sample.World := ([], []) in
  let s1' : Run Sample.World := ([], [EvRender 0 (lit 0.1)]) in
  let s2 : Run Sample.World := ([], [EvRender 0 (lit 0.1); EvStringify; EvRasterize]) in
  let s2' : Run Sample.World :=
    ([], [EvRender 0 (lit 0.1); EvStringify; EvRasterize; EvRender 0 (lit 0.2)]) in
  let c := mkCanvas 2 1 [Rect 0 0 2 1 (Some "#ff0000")] in
  let key := JSON_stringify Sample.toJSON (_objects c) in
  renderLayers 2 1 1 (lit 1) 0 [Sample.redSource] (createFabricCanvas 2 1) s1
  = (Ok (Completed c), s1')
  /\ renderLayers 2 1 1 (lit 2) 0 [Sample.redSource] (createFabricCanvas 2 1) s2
     = (Ok (Completed c), s2')
  /\ readNextFrame Sample.externals 2 1 [Sample.redSource] (lit 1) None s1
     = (Ok (Pair (Some (paintCanvas opaquePainter c)) key),
        (fst s1', snd s1' ++ [EvStringify; EvRasterize]))
  /\ readNextFrame Sample.externals 2 1 [Sample.redSource] (lit 2) (Some key) s2
     = (Ok (Pair None key), (fst s2', snd s2' ++ [EvStringify; EvClear; EvDispose])).
Proof.
  intros s1 s1' s2 s2' c key.
  split; [reflexivity|]. split; [reflexivity|].
  apply (C2_unchanged_canvas Sample.externals 2 1 [Sample.redSource] (lit 1) (lit 2) None
           s1 s1' s2 s2' c c); [reflexivity|reflexivity|reflexivity|discriminate].
Defined.



(** The overlay that starts at 2 is not rendered in the frame at time 1. *)
Lemma C4_witness :
  let sources := [Sample.rawSource; Sample.overlaySource] in
  let run :=
    readNextFrame loggedExternals 2 1 (loggingFrom 0 sources) (lit 1) None
      (([], []), []) in
  sources !! 1%nat = Some Sample.overlaySource
  /\ Js.lt (lit 1) (start (layer Sample.overlaySource)) = true
  /\ Js.lt (lit 0) (layerDuration (layer Sample.overlaySource)) = true
  /\ snd (fst (snd run)) = [(0%nat, lit 0.1)]
  /\ forall p : JsNum, (1%nat, p) ∈ [(0%nat, lit 0.1)] -> p = S754_zero true.
Proof.
  intros sources run.
  destruct (C4_not_rendered_outside_window loggedExternals 2 1 sources (lit 1) None
              [] [] [] (fst run) (snd run) 1 Sample.overlaySource eq_refl)
    as (calls & Hlog & _ & Hbefore).
  { apply surjective_pairing. }
  assert (Hcalls : calls = [(0%nat, lit 0.1)]).
  { change (snd (fst (snd run))) with ([] ++ [(0%nat, lit 0.1)]) in Hlog.
    by apply app_inv_head in Hlog. }
  split; [reflexivity|]. split; [reflexivity|]. split; [reflexivity|].
  split; [reflexivity|]. rewrite <- Hcalls.
  apply Hbefore; [reflexivity|reflexivity|]. left. split; reflexivity.
Defined.

(** C4 as stated fails: a layer of duration -2 that starts at 5 is rendered
    at time 4, with progress 0.5. *)
Lemma C4_counterexample :
  let source := Sample.rectSource backwardsLayer (Some "#ff0000") in
  Js.le (layerDuration backwardsLayer) (lit 0) = true
  /\ snd (fst (snd (readNextFrame loggedExternals 2 1 (loggingFrom 0 [source]) (lit 4) None
                      (([], []), []))))
     = [(0%nat, lit 0.5)].
Proof. split; vm_compute; reflexivity. Qed.

(** The case the amended C4 leaves open does occur: a layer of duration 4
    that starts at the least positive number is rendered at time 0, before
    its start, with the negative zero as progress. *)
Example underflow_renders_before_start :
  let source := Sample.rectSource tinyStartLayer (Some "#ff0000") in
  Js.lt (lit 0) (start tinyStartLayer) = true
  /\ Js.lt (lit 0) (layerDuration tinyStartLayer) = true
  /\ snd (fst (snd (readNextFrame loggedExternals 2 1 (loggingFrom 0 [source]) (lit 0) None
                      (([], []), []))))
     = [(0%nat, S754_zero true)].
Proof. repeat split; vm_compute; reflexivity. Qed.

(** ** Construction *)

Lemma pMap_serial_cons {St A B : Type} (mapper : A -> nat -> M St B)
    (index : nat) (item : A) (rest : list A) (s : St) :
  pMap_serial mapper index (item :: rest) s
  = match mapper item index s with
    | (Ok b, s1) =>
        match pMap_serial mapper (S index) rest s1 with
        | (Ok bs, s2) => (Ok (b :: bs), s2)
        | (Throw e, s2) => (Throw e, s2)
        end
    | (Throw e, s1) => (Throw e, s1)
    end.
Proof.
  cbn [pMap_serial]. unfold bind at 1.
  destruct (mapper item index s) as [[b|e] s1]; [|reflexivity].
  unfold bind. destruct (pMap_serial mapper (S index) rest s1) as [[bs|e] s2]; reflexivity.
Qed.

Lemma pMap_serial_app {St A B : Type} (mapper : A -> nat -> M St B)
    (items1 items2 : list A) :
  forall (index : nat) (s : St),
    pMap_serial mapper index (items1 ++ items2) s
    = match pMap_serial mapper index items1 s with
      | (Ok bs1, s1) =>
          match pMap_serial mapper (index + length items1) items2 s1 with
          | (Ok bs2, s2) => (Ok (bs1 ++ bs2), s2)
          | (Throw e, s2) => (Throw e, s2)
          end
      | (Throw e, s1) => (Throw e, s1)
      end.
Proof.
  induction items1 as [|item items1 IH]; intros index s.
  - cbn [app length pMap_serial]. unfold ret. rewrite Nat.add_0_r.
    by destruct (pMap_serial mapper index items2 s) as [[bs2|e] s2].
  - change ((item :: items1) ++ items2) with (item :: (items1 ++ items2)).
    rewrite !pMap_serial_cons.
    destruct (mapper item index s) as [[b|e] s1]; [|reflexivity].
    rewrite IH.
    replace (index + length (item :: items1)) with (S index + length items1)
      by (cbn [length]; lia).
    destruct (pMap_serial mapper (S index) items1 s1) as [[bs1|e] s2]; [|reflexivity].
    by destruct (pMap_serial mapper (S index + length items1) items2 s2)
      as [[bs2|e] s3].
Qed.

Lemma serialConstruction_app (layers1 layers2 : list Layer) :
  forall index : nat,
    serialConstruction index (layers1 ++ layers2)
    = serialConstruction index layers1
      ++ serialConstruction (index + length layers1) layers2.
Proof.
  induction layers1 as [|l layers1 IH]; intros index; cbn [app serialConstruction length].
  - by rewrite Nat.add_0_r.
  - rewrite IH. replace (S index + length layers1) with (index + S (length layers1)) by lia.
    reflexivity.
Qed.

Section Construction.
Context {World : Type} (ext : Externals World).
Variables (clipDuration : JsNum) (w h channels : nat).

(** The mapper, by what the lookup and the factory give. *)
Lemma createLayerFrameSource_run (l : Layer) (index : nat) (s : Run World) :
  createLayerFrameSource ext clipDuration w h channels l index s
  = match createFrameSourceFunc ext (type l) with
    | None => (Throw (AssertionError ("Invalid type " +:+ type l)), s)
    | Some func =>
        match func (mkOpts w h clipDuration channels l) (fst s) with
        | (Ok fs, world') =>
            (Ok (mkLayerFrameSource l fs),
             (world', snd s ++ [EvFactory index (type l); EvCreated index]))
        | (Throw e, world') =>
            (Throw e, (world', snd s ++ [EvFactory index (type l)]))
        end
    end.
Proof.
  unfold createLayerFrameSource.
  destruct (createFrameSourceFunc ext (type l)) as [func|]; [|reflexivity].
  unfold bind at 1. rewrite emit_run.
  unfold bind at 1. rewrite lift_run. cbn [fst snd].
  destruct (func _ (fst s)) as [[fs|e] world']; [|reflexivity].
  unfold bind, emit, ret. cbn. by rewrite <- app_assoc.
Qed.


(** A tag is refused when neither literal has it as an own property and
    [Object.prototype] has no member of that name. *)
Lemma createFrameSourceFunc_None (tag : string) :
  fabricFrameSources ext !! tag = None ->
  tag ∉ objectPrototype ->
  otherFrameSources ext !! tag = None ->
  createFrameSourceFunc ext tag = None.
Proof.
  intros H1 H2 H3. unfold createFrameSourceFunc, js_get.
  rewrite H1, H3. by rewrite !decide_False by assumption.
Qed.

(** Such a tag stops the construction: the assertion fails before any
    factory is called for the layer. *)
Lemma createLayerFrameSource_refuses (l : Layer) (index : nat) (s : Run World) :
  createFrameSourceFunc ext (type l) = None ->
  createLayerFrameSource ext clipDuration w h channels l index s
  = (Throw (AssertionError ("Invalid type " +:+ type l)), s).
Proof. intros H. by rewrite createLayerFrameSource_run, H. Qed.

Lemma pMap_serial_refuses (ls : list Layer) :
  forall (index : nat) (s : Run World),
    Exists (fun l => createFrameSourceFunc ext (type l) = None) ls ->
    exists e s',
      pMap_serial (createLayerFrameSource ext clipDuration w h channels) index ls s
      = (Throw e, s').
Proof.
  induction ls as [|l ls IH]; intros index s Hex; [inversion Hex|].
  rewrite pMap_serial_cons.
  destruct (createLayerFrameSource _ _ _ _ _ l index s) as [[b|e] s1] eqn:Hl;
    [|eauto].
  apply Exists_cons in Hex as [Hnone|Hex].
  - rewrite createLayerFrameSource_refuses in Hl by assumption. discriminate.
  - destruct (IH (S index) s1 Hex) as (e & s' & Hrun).
    rewrite Hrun. eauto.
Qed.

End Construction.

(** A clip with a layer of a refused tag gets no engine. *)
Lemma createFrameSource_refuses {World : Type} (ext : Externals World)
    (clip : Clip) (w h channels : nat) (s : Run World) (l : Layer) :
  l ∈ layers clip -> type l <> "audio" ->
  createFrameSourceFunc ext (type l) = None ->
  exists e s', createFrameSource ext clip w h channels s = (Throw e, s').
Proof.
  intros Hin Haudio Hnone. unfold createFrameSource.
  destruct (pMap_serial_refuses ext (duration clip) w h channels
              (filter (fun layer => type layer ≠ "audio") (layers clip)) 0 s)
    as (e & s' & Hrun).
  - apply Exists_exists. exists l. split; [|exact Hnone].
    apply list_elem_of_filter. auto.
  - exists e, s'. unfold bind. by rewrite Hrun.
Qed.

Example unknown_tag_refused :
  freshRun Sample.externals (mkClip [mkLayer "sparkles" (lit 0) (lit 10) None] (lit 10)) 2 1 4 (lit 5) None ([], [])
  = (Throw (AssertionError "Invalid type sparkles"), ([], [])).
Proof. reflexivity. Qed.

Example inherited_tag_reaches_factory :
  snd (createFrameSource Sample.externals
         (mkClip [mkLayer "constructor" (lit 0) (lit 10) None] (lit 10)) 2 1 4 ([], []))
  = ([], [EvFactory 0 "constructor"]).
Proof. reflexivity. Qed.

(** C6 at the failing input.  A layer whose tag is [constructor] names no
    registered factory, yet the lookup in the first literal finds the member
    that every object inherits, the assertion passes, and the fabric wrapper
    is called with that member: the outcome of the construction is whatever
    the wrapper makes of it, and no "Invalid type" error is raised by the
    engine. *)
Theorem C6_inherited_tag_passes_assert {World : Type} (ext : Externals World)
    (st dur d : JsNum) (col : option string) (w h channels : nat) (s : Run World) :
  let l := mkLayer "constructor" st dur col in
  createFrameSource ext (mkClip [l] d) w h channels s
  = match createFabricFrameSource ext (PrototypeMember "constructor")
            (mkOpts w h d channels l) (fst s) with
    | (Ok fs, world') =>
        (Ok (Engine.mk (readNextFrame ext w h [mkLayerFrameSource l fs])
                      (close [mkLayerFrameSource l fs])
                      [mkLayerFrameSource l fs]),
         (world', snd s ++ [EvFactory 0 "constructor"; EvCreated 0]))
    | (Throw e, world') => (Throw e, (world', snd s ++ [EvFactory 0 "constructor"]))
    end.
Proof.
  intros l. unfold createFrameSource. cbn [layers duration].
  change (filter _ [l]) with [l].
  unfold bind at 1. rewrite pMap_serial_cons, createLayerFrameSource_run.
  change (createFrameSourceFunc ext (type l))
    with (Some (createFabricFrameSource ext (PrototypeMember "constructor"))).
  cbv beta iota.
  destruct (createFabricFrameSource _ _ _ _) as [[fs|e] world']; reflexivity.
Qed.



(** ** Teardown *)







(** ** The fill-color source *)

Lemma fillColorFrameSource_run {World : Type} (ext : Externals World)
    (opts : Opts) (world : World) :
  fillColorFrameSource ext opts world
  = match getRandomColors ext 1 world with
    | (Ok colors, world') =>
        (Ok (mkCallbacks
               (fun _ canvas =>
                  ret (canvas_add
                         (Rect 0 0 (width opts) (height opts)
                            (js_or (color (params opts)) (head colors)))
                         canvas))
               None),
         world')
    | (Throw e, world') => (Throw e, world')
    end.
Proof.
  unfold fillColorFrameSource, bind.
  destruct (getRandomColors ext 1 world) as [[colors|e] world']; reflexivity.
Qed.

Lemma js_or_cases (a b : option string) :
  js_or a b = match a with
              | Some EmptyString => b
              | Some c => Some c
              | None => b
              end.
Proof. destruct a as [[|c cs]|]; reflexivity. Qed.

(** C10, as amended.  A fill-color source is built with exactly the effect
    of one call [getRandomColors(1)]; the fill is the colour parameter when
    that is a non-empty string, and the first of the random colours when
    the parameter is absent or the empty string.  Every render, whatever the
    progress and the state, adds the full-frame rectangle of that one fill
    and changes nothing else, so the drawn content is the same for all
    progress values. *)
Theorem C10_fill_chosen_at_construction {World : Type} (ext : Externals World)
    (opts : Opts) (world world' : World) (callbacks : FabricCallbacks World) :
  fillColorFrameSource ext opts world = (Ok callbacks, world') ->
  exists colors,
    getRandomColors ext 1 world = (Ok colors, world')
    /\ let fill := match color (params opts) with
                   | Some EmptyString => head colors
                   | Some c => Some c
                   | None => head colors
                   end in
       (forall (progress : JsNum) (canvas : Canvas) (w0 : World),
          onRender callbacks progress canvas w0
          = (Ok (canvas_add (Rect 0 0 (width opts) (height opts) fill) canvas), w0))
       /\ (forall (p1 p2 : JsNum) (canvas : Canvas) (w1 w2 : World),
             fst (onRender callbacks p1 canvas w1) = fst (onRender callbacks p2 canvas w2)).
Proof.
  rewrite fillColorFrameSource_run.
  destruct (getRandomColors ext 1 world) as [[colors|e] world1]; [|discriminate].
  intros [= <- <-]. exists colors. split; [reflexivity|].
  cbn [onRender]. rewrite js_or_cases. split; reflexivity.
Qed.

(** Without a colour parameter the first random colour is taken, once, and
    every render draws with it. *)
Lemma C10_witness :
  let opts := mkOpts 2 1 (lit 10) 4 (mkLayer "fill-color" (lit 0) (lit 10) None) in
  exists callbacks,
    fillColorFrameSource Sample.externals opts ["#00ff00"; "#0000ff"]
    = (Ok callbacks, ["#0000ff"])
    /\ forall (progress : JsNum) (canvas : Canvas) (w0 : Sample.World),
         onRender callbacks progress canvas w0
         = (Ok (canvas_add (Rect 0 0 2 1 (Some "#00ff00")) canvas), w0).
Proof.
  intros opts. eexists. split; [reflexivity|].
  destruct (C10_fill_chosen_at_construction Sample.externals opts
              ["#00ff00"; "#0000ff"] ["#0000ff"] _ eq_refl)
    as (colors & Hc & Hr & _).
  injection Hc as <-. exact Hr.
Defined.

(** C10 as stated fails: with the empty string given as colour, the
    rectangle is filled with the random colour, not with the parameter. *)
Lemma C10_counterexample :
  let opts := mkOpts 2 1 (lit 10) 4 (mkLayer "fill-color" (lit 0) (lit 10) (Some EmptyString)) in
  exists callbacks,
    fillColorFrameSource Sample.externals opts ["#00ff00"] = (Ok callbacks, [])
    /\ fst (onRender callbacks (lit 0) (createFabricCanvas 2 1) [])
       = Ok (mkCanvas 2 1 [Rect 0 0 2 1 (Some "#00ff00")])
    /\ Some "#00ff00" <> color (params opts).
Proof.
  intros opts. eexists. split; [reflexivity|]. split; [reflexivity|discriminate].
Qed.

(** ** Independence of the random generator *)

Section Determinism.
Context {World : Type} (ext : Externals World).
Hypothesis random_returns :
  forall (n : nat) (world : World),
    exists colors world', getRandomColors ext n world = (Ok colors, world').
Hypothesis wrapper_as_specified :
  forall (func : FabricFunc World) (opts : Opts) (world : World),
    createFabricFrameSource ext (SourceFunction func) opts world
    = fabricFrameSource func opts world.

Variables (clipDuration : JsNum) (w h channels : nat).

Lemma namesColor_source (l : Layer) (index : nat) (s : Run World) :
  namesColor l ->
  exists fs s',
    createLayerFrameSource ext clipDuration w h channels l index s
    = (Ok (mkLayerFrameSource l fs), s')
    /\ forall (progress : JsNum) (canvas : Canvas) (world : World),
         FrameSource.readNextFrame fs progress canvas world
         = (Ok (None, canvas_add (Rect 0 0 w h (color l)) canvas), world).
Proof.
  intros [Htag Hcol]. rewrite createLayerFrameSource_run, Htag.
  change (createFrameSourceFunc ext "fill-color")
    with (Some (createFabricFrameSource ext
                  (SourceFunction (fillColorFrameSource ext)))).
  cbv beta iota. rewrite wrapper_as_specified.
  unfold fabricFrameSource, bind. rewrite fillColorFrameSource_run.
  destruct (random_returns 1 (fst s)) as (colors & world' & ->).
  cbn. do 2 eexists. split; [reflexivity|].
  intros progress canvas world. cbn.
  unfold js_or. rewrite Hcol. reflexivity.
Qed.

Lemma namesColor_builtAlike (l : Layer) :
  namesColor l -> builtAlike ext clipDuration w h channels l.
Proof.
  intros Hl index s1 s2.
  destruct (namesColor_source l index s1 Hl) as (fs1 & t1 & -> & Hd1).
  destruct (namesColor_source l index s2 Hl) as (fs2 & t2 & -> & Hd2).
  do 4 eexists. split; [reflexivity|]. split; [reflexivity|].
  split; [reflexivity|].
  exists (fun _ canvas => (None, canvas_add (Rect 0 0 w h (color l)) canvas)).
  intros progress canvas world. cbn. by rewrite Hd1, Hd2.
Qed.

End Determinism.

Lemma pMap_serial_builtAlike {World : Type} (ext : Externals World)
    (clipDuration : JsNum) (w h channels : nat) (ls : list Layer) :
  Forall (builtAlike ext clipDuration w h channels) ls ->
  forall (index : nat) (s1 s2 : Run World),
    exists built1 built2 s1' s2',
      pMap_serial (createLayerFrameSource ext clipDuration w h channels) index ls s1
      = (Ok built1, s1')
      /\ pMap_serial (createLayerFrameSource ext clipDuration w h channels) index ls s2
         = (Ok built2, s2')
      /\ Forall2 sameRendering built1 built2.
Proof.
  induction 1 as [|l ls Hl Hls IH]; intros index s1 s2.
  - exists [], [], s1, s2. done.
  - rewrite !pMap_serial_cons.
    destruct (Hl index s1 s2) as (a & b & t1 & t2 & -> & -> & Hab).
    destruct (IH (S index) t1 t2) as (b1 & b2 & u1 & u2 & -> & -> & Hsame).
    do 4 eexists. split; [reflexivity|]. split; [reflexivity|].
    by constructor.
Qed.

(** Layer frame sources that render alike give the same loop exit. *)
Lemma renderLayers_sameRendering {World : Type} (w h count : nat) (time : JsNum)
    (l1 l2 : list (LayerFrameSource World)) :
  Forall2 sameRendering l1 l2 ->
  forall (index : nat) (canvas : Canvas) (s1 s2 : Run World),
    fst (renderLayers w h count time index l1 canvas s1)
    = fst (renderLayers w h count time index l2 canvas s2).
Proof.
  induction 1 as [|a b l1 l2 [Hl (render & Hrender)] _ IH]; intros index canvas s1 s2;
    [reflexivity|].
  destruct (shouldDrawLayer time (layer a)) eqn:Hd.
  - destruct (Hrender (offsetProgress time (layer a)) canvas (fst s1)) as [Ha _].
    destruct (Hrender (offsetProgress time (layer a)) canvas (fst s2)) as [_ Hb].
    destruct (render (offsetProgress time (layer a)) canvas) as [rgba canvas'].
    rewrite (renderLayers_draw _ _ _ _ _ _ _ _ _ _ _ _ Hd Ha).
    rewrite Hl in Hd, Hb.
    rewrite (renderLayers_draw _ _ _ _ _ _ _ _ _ _ _ _ Hd Hb).
    destruct rgba as [rgba|]; [|apply IH].
    destruct (Nat.eqb count 1); [reflexivity|apply IH].
  - rewrite (renderLayers_skip _ _ _ _ _ _ _ _ Hd).
    rewrite Hl in Hd. rewrite (renderLayers_skip _ _ _ _ _ _ _ _ Hd).
    apply IH.
Qed.

Lemma compareAndRender_result {World : Type} (ext : Externals World)
    (last : option string) (canvas : Canvas) (s1 s2 : Run World) :
  fst (compareAndRender ext last canvas s1) = fst (compareAndRender ext last canvas s2).
Proof.
  unfold compareAndRender. unfold bind at 1 3. rewrite !emit_run.
  destruct (truthy last && bool_decide _); reflexivity.
Qed.

Lemma readNextFrame_sameRendering {World : Type} (ext : Externals World)
    (w h : nat) (time : JsNum) (last : option string)
    (l1 l2 : list (LayerFrameSource World)) (s1 s2 : Run World) :
  Forall2 sameRendering l1 l2 ->
  fst (readNextFrame ext w h l1 time last s1)
  = fst (readNextFrame ext w h l2 time last s2).
Proof.
  intros Hsame. rewrite !readNextFrame_loop.
  pose proof (renderLayers_sameRendering w h (length l1) time l1 l2 Hsame 0
                (createFabricCanvas w h) s1 s2) as Hloop.
  rewrite <- (Forall2_length _ _ _ Hsame).
  destruct (renderLayers w h (length l1) time 0 l1 _ s1) as [[[c1|b1]|e1] t1];
    destruct (renderLayers w h (length l1) time 0 l2 _ s2) as [[[c2|b2]|e2] t2];
    cbn in Hloop; simplify_eq; try reflexivity.
  apply compareAndRender_result.
Qed.

(** C5, as amended.  Let the random generator return normally and the
    fabric wrapper be as the specification describes it.  For a clip in which
    every visual layer is a fill-color layer that names a colour, or a layer
    whose frame source is built and renders without regard to the state,
    what a fresh engine returns for a frame does not depend on the state it
    starts from, the random generator's included: two independent runs on
    the same clip, configuration, time and last key return the same
    result. *)
Theorem C5_deterministic_when_colours_named {World : Type} (ext : Externals World)
    (clip : Clip) (w h channels : nat) (time : JsNum) (last : option string)
    (s1 s2 : Run World) :
  (forall (n : nat) (world : World),
     exists colors world', getRandomColors ext n world = (Ok colors, world')) ->
  (forall (func : FabricFunc World) (opts : Opts) (world : World),
     createFabricFrameSource ext (SourceFunction func) opts world
     = fabricFrameSource func opts world) ->
  (forall l, l ∈ layers clip -> type l <> "audio" ->
             namesColor l \/ builtAlike ext (duration clip) w h channels l) ->
  fst (freshRun ext clip w h channels time last s1)
  = fst (freshRun ext clip w h channels time last s2).
Proof.
  intros Hrandom Hwrapper Hnamed.
  unfold freshRun, createFrameSource.
  destruct (pMap_serial_builtAlike ext (duration clip) w h channels
              (filter (fun l => type l ≠ "audio") (layers clip))) with (index := 0%nat)
              (s1 := s1) (s2 := s2)
    as (b1 & b2 & t1 & t2 & H1 & H2 & Hsame).
  - apply Forall_forall. intros l Hl. apply list_elem_of_filter in Hl as [Ha Hin].
    destruct (Hnamed l Hin Ha) as [Hc|Hb]; [|exact Hb].
    by apply namesColor_builtAlike.
  - unfold bind. rewrite H1, H2. cbn [Engine.readNextFrame ret].
    by apply readNextFrame_sameRendering.
Qed.

(** A raw-buffer layer under a red overlay gives the same frame whatever
    colours the random generator holds. *)
Lemma C5_witness :
  (forall (n : nat) (world : Sample.World),
     exists colors world',
       getRandomColors Sample.externals n world = (Ok colors, world'))
  /\ (forall l, l ∈ layers Sample.overlayClip -> type l <> "audio" ->
                namesColor l \/ builtAlike Sample.externals (lit 10) 2 1 4 l)
  /\ fst (freshRun Sample.externals Sample.overlayClip 2 1 4 (lit 3) None (["#00ff00"], []))
     = fst (freshRun Sample.externals Sample.overlayClip 2 1 4 (lit 3) None (["#0000ff"], [])).
Proof.
  assert (Hrandom : forall (n : nat) (world : Sample.World),
            exists colors world',
              getRandomColors Sample.externals n world = (Ok colors, world'))
    by (intros n world; do 2 eexists; reflexivity).
  assert (Hnamed : forall l, l ∈ layers Sample.overlayClip -> type l <> "audio" ->
                             namesColor l \/ builtAlike Sample.externals (lit 10) 2 1 4 l).
  { intros l Hl _. apply elem_of_cons in Hl as [->|Hl].
    - right. intros index s1 s2. do 4 eexists.
      split; [reflexivity|]. split; [reflexivity|]. split; [reflexivity|].
      eexists. intros progress canvas world. split; reflexivity.
    - apply list_elem_of_singleton in Hl as ->. left. split; reflexivity. }
  split; [exact Hrandom|]. split; [exact Hnamed|].
  apply (C5_deterministic_when_colours_named Sample.externals Sample.overlayClip 2 1 4 (lit 3) None
           (["#00ff00"], []) (["#0000ff"], []) Hrandom (fun _ _ _ => eq_refl) Hnamed).
Defined.

Example uncoloured_green :
  fst (freshRun Sample.externals Sample.uncolouredClip 2 1 4 (lit 5) None (["#00ff00"], []))
  = Ok (Pair (Some [x00; xff; x00; xff; x00; xff; x00; xff]) "[{rect,0,2,1,#00ff00}]").
Proof. reflexivity. Qed.

Example uncoloured_blue :
  fst (freshRun Sample.externals Sample.uncolouredClip 2 1 4 (lit 5) None (["#0000ff"], []))
  = Ok (Pair (Some [x00; x00; xff; xff; x00; x00; xff; xff]) "[{rect,0,2,1,#0000ff}]").
Proof. reflexivity. Qed.

(** C5 as stated fails: the same clip, a fill-color layer that names no
    colour, composed at the same size and time by two fresh engines, gives
    two different buffers when the random generator hands out different
    colours. *)
Lemma C5_counterexample :
  fst (freshRun Sample.externals Sample.uncolouredClip 2 1 4 (lit 5) None (["#00ff00"], []))
  <> fst (freshRun Sample.externals Sample.uncolouredClip 2 1 4 (lit 5) None (["#0000ff"], [])).
Proof. rewrite uncoloured_green, uncoloured_blue. discriminate. Qed.

(** ** The order of the layers is the z-order *)

Lemma renderLayers_app {World : Type} (w h count : nat) (time : JsNum)
    (pre post : list (LayerFrameSource World)) :
  forall (index : nat) (canvas : Canvas) (s : Run World),
    renderLayers w h count time index (pre ++ post) canvas s
    = match renderLayers w h count time index pre canvas s with
      | (Ok (Completed canvas1), s1) =>
          renderLayers w h count time (index + length pre) post canvas1 s1
      | stopped => stopped
      end.
Proof.
  induction pre as [|a pre IH]; intros index canvas s.
  - cbn. by rewrite Nat.add_0_r.
  - cbn [app length]. replace (index + S (length pre))%nat with (S index + length pre)%nat by lia.
    destruct (shouldDrawLayer time (layer a)) eqn:Hd.
    + destruct (FrameSource.readNextFrame (frameSource a)
                  (offsetProgress time (layer a)) canvas (fst s))
        as [[[rgba canvas']|e] world'] eqn:Hr.
      * rewrite !(renderLayers_draw _ _ _ _ _ _ _ _ _ _ _ _ Hd Hr).
        destruct rgba as [rgba|]; [|apply IH].
        destruct (Nat.eqb count 1); [reflexivity|apply IH].
      * rewrite !(renderLayers_draw_throw _ _ _ _ _ _ _ _ _ _ _ Hd Hr). reflexivity.
    + rewrite !(renderLayers_skip _ _ _ _ _ _ _ _ Hd). apply IH.
Qed.

(** Where a list of drawables covers a pixel, what lies under the list does
    not show. *)
Lemma covered_pixel (paint : Painter) (above : list FabricObject) (x y : nat) :
  covers paint above x y ->
  forall under1 under2 : Pixel,
    foldl (fun under obj => paint obj x y under) under1 above
    = foldl (fun under obj => paint obj x y under) under2 above.
Proof.
  induction 1 as [obj above Hobj|obj above _ IH]; intros under1 under2; cbn [foldl].
  - by rewrite (Hobj under1 under2).
  - apply IH.
Qed.

Lemma pixelAt_covered (paint : Painter) (below above : list FabricObject) (x y : nat) :
  covers paint above x y ->
  pixelAt paint (below ++ above) x y = pixelAt paint above x y.
Proof.
  intros Hc. unfold pixelAt. rewrite foldl_app. by apply covered_pixel.
Qed.

(** The buffer of the rasterizer holds the pixels row by row, four bytes
    each. *)
Lemma bind_seq_block {A : Type} (f : nat -> list A) (k : nat) :
  (forall j, length (f j) = k) ->
  forall (n i start : nat),
    (i < n)%nat ->
    take k (drop (k * i) (seq start n ≫= f)) = f (start + i)%nat.
Proof.
  intros Hlen. induction n as [|n IH]; intros i start Hi; [lia|].
  cbn [seq]. rewrite bind_cons. destruct i as [|i].
  - rewrite Nat.mul_0_r, Nat.add_0_r, drop_0.
    rewrite take_app_length' by (symmetry; apply Hlen). reflexivity.
  - replace (k * S i)%nat with (length (f start) + k * i)%nat
      by (rewrite Hlen; lia).
    rewrite drop_app_add, IH by lia. f_equal. lia.
Qed.

Lemma length_pixelBytes (p : Pixel) : length (pixelBytes p) = 4%nat.
Proof. by destruct p as [[[r g] b] a]. Qed.

Lemma length_bind_seq {A : Type} (f : nat -> list A) (k : nat) :
  (forall j, length (f j) = k) ->
  forall n start : nat, length (seq start n ≫= f) = (n * k)%nat.
Proof.
  intros Hlen. induction n as [|n IH]; intros start; [reflexivity|].
  cbn [seq]. rewrite bind_cons, length_app, Hlen, IH. lia.
Qed.

Lemma pixelOf_paintCanvas (paint : Painter) (canvas : Canvas) (x y : nat) :
  (x < canvasWidth canvas)%nat -> (y < canvasHeight canvas)%nat ->
  pixelOf (canvasWidth canvas) (paintCanvas paint canvas) x y
  = pixelBytes (pixelAt paint (_objects canvas) x y).
Proof.
  intros Hx Hy. unfold pixelOf, paintCanvas.
  set (width := canvasWidth canvas) in *.
  set (row := fun y0 : nat =>
                seq 0 width ≫= (fun x0 => pixelBytes (pixelAt paint (_objects canvas) x0 y0))).
  set (buffer := seq 0 (canvasHeight canvas) ≫= row).
  assert (Hrow : forall y0, length (row y0) = (4 * width)%nat).
  { intros y0. unfold row.
    rewrite (length_bind_seq _ 4) by (intros; apply length_pixelBytes). lia. }
  replace (4 * (y * width + x))%nat with (4 * width * y + 4 * x)%nat by lia.
  rewrite <- drop_drop.
  rewrite take_drop_commute.
  replace (take (4 * x + 4) (drop (4 * width * y) buffer))
    with (take (4 * x + 4) (take (4 * width) (drop (4 * width * y) buffer)))
    by (rewrite take_take; f_equal; lia).
  unfold buffer. rewrite (bind_seq_block row (4 * width) Hrow) by exact Hy.
  rewrite <- take_drop_commute. unfold row.
  rewrite (bind_seq_block _ 4) by (try (intros; apply length_pixelBytes); exact Hx).
  reflexivity.
Qed.

(** C8.  Let the engine hold several layers, [pre] those declared before a
    layer [B], a layer A among them, and [post] those after it, and let the
    rasterizer paint the drawables of a canvas in list order.  Let the loop
    over [pre] have left the canvas [cA], let [B] be due and its render,
    called next on [cA], have added the drawables [objsB] and returned [rb],
    and let the loop over [post] have added [later].  Then the frame that
    [readNextFrame] returns is the rasterized canvas: a buffer that [B]
    returned is wrapped as an image and added after [objsB], nothing is
    added when it returned nothing; the drawables of [B] lie after all
    those of [cA]; and at a pixel that the drawables of [B] cover, the frame
    shows what they and the later drawables give alone: what A drew there
    is occluded. *)
Theorem C8_declared_order_is_z_order {World : Type} (ext : Externals World)
    (paint : Painter) (w h : nat) (time : JsNum) (last : option string)
    (pre post : list (LayerFrameSource World)) (B : LayerFrameSource World)
    (s sA sF : Run World) (cA cb cF : Canvas) (rb : option Buffer) (wB : World)
    (objsB later : list FabricObject) (x y : nat) :
  let sources := pre ++ B :: post in
  let count := length sources in
  let pB := offsetProgress time (layer B) in
  let cB := afterRender w h rb cb in
  let key := JSON_stringify (toJSON ext) (_objects cF) in
  renderFabricCanvas ext = paintCanvas paint ->
  count <> 1%nat ->
  renderLayers w h count time 0 pre (createFabricCanvas w h) s = (Ok (Completed cA), sA) ->
  shouldDrawLayer time (layer B) = true ->
  FrameSource.readNextFrame (frameSource B) pB cA (fst sA) = (Ok (rb, cb), wB) ->
  _objects cb = _objects cA ++ objsB ->
  renderLayers w h count time (S (length pre)) post cB
    (wB, snd sA ++ EvRender (length pre) pB :: wrapEvents rb)
  = (Ok (Completed cF), sF) ->
  _objects cF = _objects cB ++ later ->
  canvasWidth cF = w -> canvasHeight cF = h ->
  last <> Some key ->
  (x < w)%nat -> (y < h)%nat ->
  covers paint (objsB ++ wrapped w h rb) x y ->
  readNextFrame ext w h sources time last s
  = (Ok (Pair (Some (paintCanvas paint cF)) key),
     (fst sF, snd sF ++ [EvStringify; EvRasterize]))
  /\ _objects cF = _objects cA ++ (objsB ++ wrapped w h rb) ++ later
  /\ pixelOf w (paintCanvas paint cF) x y
     = pixelBytes (pixelAt paint ((objsB ++ wrapped w h rb) ++ later) x y).
Proof.
  intros sources count pB cB key Hpaint Hcount Hpre Hdue Hrender Hadds Hpost Hlater
    Hwidth Hheight Hlast Hx Hy Hcovers.
  assert (HcB : _objects cB = _objects cA ++ (objsB ++ wrapped w h rb)).
  { subst cB. destruct rb as [rgba|]; cbn [afterRender wrapped canvas_add _objects
                                           rgbaToFabricImage].
    - by rewrite Hadds, <- app_assoc.
    - by rewrite Hadds, app_nil_r. }
  assert (HcF : _objects cF = _objects cA ++ (objsB ++ wrapped w h rb) ++ later)
    by (by rewrite Hlater, HcB, <- app_assoc).
  assert (Hloop : renderLayers w h count time 0 sources (createFabricCanvas w h) s
                  = (Ok (Completed cF), sF)).
  { apply Nat.eqb_neq in Hcount.
    unfold sources. rewrite renderLayers_app, Hpre. cbn [Nat.add].
    rewrite (renderLayers_draw _ _ _ _ _ _ _ _ _ _ _ _ Hdue Hrender), Hcount.
    rewrite <- Hpost. subst cB.
    destruct rb as [rgba|]; cbn [afterRender wrapEvents]; by rewrite <- ?app_assoc. }
  split; [|split; [exact HcF|]].
  - rewrite readNextFrame_loop. fold count. rewrite Hloop.
    rewrite compareAndRender_changed by exact Hlast. by rewrite Hpaint.
  - rewrite <- Hwidth at 1. rewrite pixelOf_paintCanvas by lia.
    f_equal. rewrite HcF. apply pixelAt_covered.
    apply Exists_app. by left.
Qed.

(** A red overlay declared after a raw-buffer layer, both due at time 3:
    the overlay is rendered second, its rectangle lies after the image of
    the first layer, and the frame is red where the rectangle is. *)
Lemma C8_witness :
  let cA := mkCanvas 2 1 [Image 2 1 (repeat x80 8)] in
  let objsB := [Rect 0 0 2 1 (Some "#ff0000")] in
  let cb := mkCanvas 2 1 (_objects cA ++ objsB) in
  let sA : Run Sample.World := ([], [EvRender 0 (lit 0.3); EvImage]) in
  let sF : Run Sample.World :=
    ([], [EvRender 0 (lit 0.3); EvImage; EvRender 1 (lit 0.5)]) in
  renderLayers 2 1 2 (lit 3) 0 [Sample.rawSource] (createFabricCanvas 2 1) ([], [])
    = (Ok (Completed cA), sA)
  /\ shouldDrawLayer (lit 3) (layer Sample.overlaySource) = true
  /\ FrameSource.readNextFrame (frameSource Sample.overlaySource) (lit 0.5) cA []
     = (Ok (None, cb), [])
  /\ covers opaquePainter objsB 1 0
  /\ readNextFrame Sample.externals 2 1 [Sample.rawSource; Sample.overlaySource]
       (lit 3) None ([], [])
     = (Ok (Pair (Some [xff; x00; x00; xff; xff; x00; x00; xff])
                 (JSON_stringify Sample.toJSON (_objects cb))),
        ([], snd sF ++ [EvStringify; EvRasterize]))
  /\ pixelOf 2 [xff; x00; x00; xff; xff; x00; x00; xff] 1 0 = [xff; x00; x00; xff].
Proof.
  intros cA objsB cb sA sF.
  assert (Hcovers : covers opaquePainter (objsB ++ wrapped 2 1 None) 1 0)
    by (apply Exists_cons_hd; intros under1 under2; reflexivity).
  destruct (C8_declared_order_is_z_order Sample.externals opaquePainter 2 1 (lit 3) None
              [Sample.rawSource] [] Sample.overlaySource
              ([], []) sA sF cA cb cb None [] objsB [] 1 0
              eq_refl ltac:(discriminate) eq_refl eq_refl eq_refl eq_refl eq_refl
              ltac:(symmetry; apply app_nil_r) eq_refl eq_refl ltac:(discriminate)
              ltac:(lia) ltac:(lia) Hcovers)
    as (Hframe & _ & Hpixel).
  split; [reflexivity|]. split; [reflexivity|]. split; [reflexivity|].
  split; [exact Hcovers|]. split; [exact Hframe|exact Hpixel].
Defined.

(** The painter need not know the drawable: a drawable of another kind that
    paints every pixel black covers every pixel. *)
Example other_drawable_covers :
  let paint : Painter :=
    fun obj x y under =>
      match obj with
      | Other _ => (x00, x00, x00, xff)
      | _ => opaquePainter obj x y under
      end in
  forall (what : string) (x y : nat), covers paint [Other what] x y.
Proof. intros paint what x y. apply Exists_cons_hd. intros under1 under2. reflexivity. Qed.

(** * Further properties of the engine *)

(** X1.  A layer type passes the lookup of [createFrameSource] exactly when
    it is one of the thirteen registered tags or the name of a member of
    [Object.prototype]. *)
Theorem createFrameSourceFunc_accepts_iff {World : Type} (ext : Externals World)
    (tag : string) :
  is_Some (createFrameSourceFunc ext tag)
  <-> tag ∈ registeredTags \/ tag ∈ objectPrototype.
Proof.
  unfold createFrameSourceFunc, js_get.
  destruct (fabricFrameSources ext !! tag) as [f|] eqn:Hf.
  - split; [intros _|eauto]. left.
    apply elem_of_list_to_map_2 in Hf.
    apply (list_elem_of_fmap_2 fst) in Hf. cbn in Hf.
    unfold registeredTags. rewrite !elem_of_cons in Hf. rewrite !elem_of_cons. tauto.
  - destruct (decide (tag ∈ objectPrototype)) as [Hp|Hp]; [split; eauto|].
    destruct (otherFrameSources ext !! tag) as [g|] eqn:Hg.
    + split; [intros _|eauto]. left.
      apply elem_of_list_to_map_2 in Hg.
      apply (list_elem_of_fmap_2 fst) in Hg. cbn in Hg.
      unfold registeredTags. rewrite !elem_of_cons in Hg. rewrite !elem_of_cons. tauto.
    + split; [intros [? [=]]|].
      intros [Hr|Hr]; [|contradiction].
      apply not_elem_of_list_to_map in Hf, Hg. cbn in Hf, Hg.
      unfold registeredTags in Hr.
      rewrite !elem_of_cons in Hf. rewrite !elem_of_cons in Hg.
      rewrite !elem_of_cons in Hr. tauto.
Qed.

(** X2.  A frame that [readNextFrame] returns as a pair carries [undefined]
    in place of the buffer exactly when the caller's last key is the key
    returned; with no last key, or another one, the buffer is there. *)
Theorem unchanged_iff_last_key {World : Type} (ext : Externals World)
    (w h : nat) (sources : list (LayerFrameSource World)) (time : JsNum)
    (last : option string) (s s' : Run World) (rgba : option Buffer) (key : string) :
  readNextFrame ext w h sources time last s = (Ok (Pair rgba key), s') ->
  (rgba = None <-> last = Some key).
Proof.
  rewrite readNextFrame_loop.
  destruct (renderLayers _ _ _ _ _ _ _ s) as [[[c|b]|e] s1]; [|discriminate..].
  destruct (decide (last = Some (JSON_stringify (toJSON ext) (_objects c)))) as [->|Hne].
  - rewrite compareAndRender_same. intros [= <- <- <-]. done.
  - rewrite compareAndRender_changed by assumption. intros [= <- <- <-].
    split; [discriminate|contradiction].
Qed.

Lemma unchanged_iff_last_key_witness :
  readNextFrame Sample.externals 2 1 [Sample.redSource] (lit 5)
    (Some "[{rect,0,2,1,#ff0000}]") ([], [])
  = (Ok (Pair None "[{rect,0,2,1,#ff0000}]"),
     ([], [EvRender 0 (lit 0.5); EvStringify; EvClear; EvDispose]))
  /\ ((None : option Buffer) = None
      <-> Some "[{rect,0,2,1,#ff0000}]" = Some "[{rect,0,2,1,#ff0000}]").
Proof.
  split; [reflexivity|].
  apply (unchanged_iff_last_key Sample.externals 2 1 [Sample.redSource] (lit 5)
           (Some "[{rect,0,2,1,#ff0000}]") ([], [])
           ([], [EvRender 0 (lit 0.5); EvStringify; EvClear; EvDispose])
           None "[{rect,0,2,1,#ff0000}]").
  reflexivity.
Defined.

(** X3.  [readNextFrame] returns a bare buffer only from an engine of
    exactly one layer, when that layer is due; the call has then done
    nothing but that one render. *)
Theorem bare_only_from_single_layer {World : Type} (ext : Externals World)
    (w h : nat) (sources : list (LayerFrameSource World)) (time : JsNum)
    (last : option string) (s s' : Run World) (b : Buffer) :
  readNextFrame ext w h sources time last s = (Ok (Bare b), s') ->
  exists x,
    sources = [x]
    /\ shouldDrawLayer time (layer x) = true
    /\ snd s' = snd s ++ [EvRender 0 (offsetProgress time (layer x))].
Proof.
  rewrite readNextFrame_loop.
  destruct (renderLayers _ _ _ _ _ _ _ s) as [[[c|b']|e] s1] eqn:Hloop.
  - destruct (compareAndRender_trace ext last c s1) as (rgba & more & -> & _).
    discriminate.
  - intros [= -> ->].
    pose proof Hloop as Htrace.
    apply renderLayers_trace in Htrace as (added & _ & _ & Hcount & _).
    destruct sources as [|x [|y rest]]; try discriminate.
    exists x. split; [reflexivity|].
    destruct (shouldDrawLayer time (layer x)) eqn:Hd.
    + split; [reflexivity|].
      destruct (FrameSource.readNextFrame (frameSource x)
                  (offsetProgress time (layer x)) (createFabricCanvas w h) (fst s))
        as [[[rgba canvas']|e] world'] eqn:Hr.
      * rewrite (renderLayers_draw _ _ _ _ _ _ _ _ _ _ _ _ Hd Hr) in Hloop.
        destruct rgba; cbn in Hloop; simplify_eq; reflexivity.
      * rewrite (renderLayers_draw_throw _ _ _ _ _ _ _ _ _ _ _ Hd Hr) in Hloop.
        discriminate.
    + rewrite (renderLayers_skip _ _ _ _ _ _ _ _ Hd) in Hloop. discriminate.
  - discriminate.
Qed.

Lemma bare_only_from_single_layer_witness :
  readNextFrame Sample.externals 2 1 [Sample.rawSource] (lit 5) None ([], [])
  = (Ok (Bare (repeat x80 8)), ([], [EvRender 0 (lit 0.5)]))
  /\ exists x,
       [Sample.rawSource] = [x]
       /\ shouldDrawLayer (lit 5) (layer x) = true
       /\ [EvRender 0 (lit 0.5)]
          = [] ++ [EvRender 0 (offsetProgress (lit 5) (layer x))].
Proof.
  split; [reflexivity|].
  apply (bare_only_from_single_layer Sample.externals 2 1 [Sample.rawSource] (lit 5) None
           ([], []) ([], [EvRender 0 (lit 0.5)]) (repeat x80 8)).
  reflexivity.
Defined.

(** X4.  When the render of a due layer throws, [readNextFrame] throws the
    same error at once: the layers declared after it are not rendered, and
    the canvas is neither serialized nor rasterized. *)
Theorem render_throw_aborts_frame {World : Type} (ext : Externals World)
    (w h : nat) (time : JsNum) (last : option string)
    (pre post : list (LayerFrameSource World)) (x : LayerFrameSource World)
    (s sA : Run World) (cA : Canvas) (e : JsError) (wX : World) :
  let sources := pre ++ x :: post in
  renderLayers w h (length sources) time 0 pre (createFabricCanvas w h) s
    = (Ok (Completed cA), sA) ->
  shouldDrawLayer time (layer x) = true ->
  FrameSource.readNextFrame (frameSource x) (offsetProgress time (layer x)) cA (fst sA)
    = (Throw e, wX) ->
  readNextFrame ext w h sources time last s
  = (Throw e, (wX, snd sA ++ [EvRender (length pre) (offsetProgress time (layer x))])).
Proof.
  intros sources Hpre Hdue Hthrow.
  rewrite readNextFrame_loop. unfold sources at 2.
  rewrite renderLayers_app, Hpre. cbn [Nat.add].
  by rewrite (renderLayers_draw_throw _ _ _ _ _ _ _ _ _ _ _ Hdue Hthrow).
Qed.

(** A raw-buffer layer is rendered and wrapped, then the second layer
    throws: the frame is that error. *)
Lemma render_throw_aborts_frame_witness :
  let cA := mkCanvas 2 1 [Image 2 1 (repeat x80 8)] in
  let sA : Run Sample.World := ([], [EvRender 0 (lit 0.5); EvImage]) in
  renderLayers 2 1 2 (lit 5) 0 [Sample.rawSource] (createFabricCanvas 2 1) ([], [])
    = (Ok (Completed cA), sA)
  /\ shouldDrawLayer (lit 5) (layer failingSource) = true
  /\ readNextFrame Sample.externals 2 1 [Sample.rawSource; failingSource] (lit 5) None ([], [])
     = (Throw (Thrown "decode failed"),
        ([], [EvRender 0 (lit 0.5); EvImage; EvRender 1 (lit 0.5)])).
Proof.
  intros cA sA. split; [reflexivity|]. split; [reflexivity|].
  apply (render_throw_aborts_frame Sample.externals 2 1 (lit 5) None [Sample.rawSource] []
           failingSource ([], []) sA cA (Thrown "decode failed") []); reflexivity.
Defined.

(** X5.  When the factory of a layer throws, [createFrameSource] throws the
    same error: the factories of the layers after it are never called, and
    no engine is returned. *)
Theorem factory_throw_aborts_construction {World : Type} (ext : Externals World)
    (clip : Clip) (w h channels : nat) (s s1 : Run World)
    (pre post : list Layer) (l : Layer) (built : list (LayerFrameSource World))
    (func : Opts -> M World (FrameSource.t World)) (e : JsError) (w1 : World) :
  filter (fun l => type l ≠ "audio") (layers clip) = pre ++ l :: post ->
  pMap_serial (createLayerFrameSource ext (duration clip) w h channels) 0 pre s
    = (Ok built, s1) ->
  createFrameSourceFunc ext (type l) = Some func ->
  func (mkOpts w h (duration clip) channels l) (fst s1) = (Throw e, w1) ->
  createFrameSource ext clip w h channels s
  = (Throw e, (w1, snd s1 ++ [EvFactory (length pre) (type l)])).
Proof.
  intros Hvisual Hpre Hfunc Hthrow.
  unfold createFrameSource. rewrite Hvisual. unfold bind at 1.
  rewrite pMap_serial_app, Hpre. cbn [Nat.add].
  rewrite pMap_serial_cons, createLayerFrameSource_run, Hfunc, Hthrow.
  reflexivity.
Qed.

Lemma factory_throw_aborts_construction_witness :
  let s1 : Run Sample.World := ([], [EvFactory 0 "fill-color"; EvCreated 0]) in
  pMap_serial (createLayerFrameSource Sample.externals (lit 10) 2 1 4) 0
    [mkLayer "fill-color" (lit 0) (lit 10) (Some "#ff0000")] ([], [])
    = (Ok [Sample.redSource], s1)
  /\ createFrameSource Sample.externals inheritedTagClip 2 1 4 ([], [])
     = (Throw (Thrown "not a source function: constructor"),
        ([], [EvFactory 0 "fill-color"; EvCreated 0; EvFactory 1 "constructor"])).
Proof.
  intros s1. split; [reflexivity|].
  apply (factory_throw_aborts_construction Sample.externals inheritedTagClip 2 1 4
           ([], []) s1 [mkLayer "fill-color" (lit 0) (lit 10) (Some "#ff0000")] []
           (mkLayer "constructor" (lit 0) (lit 10) None) [Sample.redSource]
           (Sample.createFabricFrameSource (PrototypeMember "constructor"))
           (Thrown "not a source function: constructor") []); reflexivity.
Defined.

Lemma renderLayers_none_due {World : Type} (w h count : nat) (time : JsNum)
    (rest : list (LayerFrameSource World)) :
  Forall (fun x => shouldDrawLayer time (layer x) = false) rest ->
  forall (index : nat) (canvas : Canvas) (s : Run World),
    renderLayers w h count time index rest canvas s = (Ok (Completed canvas), s).
Proof.
  induction 1 as [|x rest Hx _ IH]; intros index canvas s; [reflexivity|].
  rewrite (renderLayers_skip _ _ _ _ _ _ _ _ Hx). apply IH.
Qed.

(** X6.  At a time when no layer is due, and in particular for an engine
    without layers, [readNextFrame] calls no render and returns the pair
    for the empty canvas: its rasterization with the key of the empty
    list, or [undefined] with that key when the caller's last key is that
    one.  This holds for an engine of a single layer too: outside the
    layer's window the result is a pair, not a bare buffer. *)
Theorem no_layer_due_gives_empty_frame {World : Type} (ext : Externals World)
    (w h : nat) (sources : list (LayerFrameSource World)) (time : JsNum)
    (last : option string) (s : Run World) :
  Forall (fun x => shouldDrawLayer time (layer x) = false) sources ->
  readNextFrame ext w h sources time last s
  = (Ok (emptyFrame ext w h last), (fst s, snd s ++ emptyFrameEvents last)).
Proof.
  intros Hnone. rewrite readNextFrame_loop, renderLayers_none_due by assumption.
  unfold emptyFrame, emptyFrameEvents.
  destruct (decide (last = Some "[]")) as [->|Hne].
  - rewrite bool_decide_eq_true_2 by reflexivity.
    apply (compareAndRender_same ext (createFabricCanvas w h) s).
  - rewrite bool_decide_eq_false_2 by assumption.
    by apply compareAndRender_changed.
Qed.

Lemma no_layer_due_gives_empty_frame_witness :
  Forall (fun x => shouldDrawLayer (lit 11) (layer x) = false) [Sample.rawSource]
  /\ readNextFrame Sample.externals 2 1 [Sample.rawSource] (lit 11) None ([], [])
     = (Ok (Pair (Some (repeat x00 8)) "[]"), ([], [EvStringify; EvRasterize])).
Proof.
  assert (H : Forall (fun x => shouldDrawLayer (lit 11) (layer x) = false) [Sample.rawSource])
    by (repeat constructor).
  split; [exact H|].
  apply (no_layer_due_gives_empty_frame Sample.externals 2 1 [Sample.rawSource] (lit 11) None
           ([], []) H).
Defined.

(** X7.  The tag [audio] is not registered, and an audio layer never
    reaches the lookup: a clip builds the same engine, with the same layer
    indices, as the clip without its audio layers. *)
Theorem audio_layers_are_ignored {World : Type} (ext : Externals World)
    (before after : list Layer) (a : Layer) (d : JsNum) (w h channels : nat) :
  type a = "audio" ->
  createFrameSourceFunc ext (type a) = None
  /\ createFrameSource ext (mkClip (before ++ a :: after) d) w h channels
     = createFrameSource ext (mkClip (before ++ after) d) w h channels.
Proof.
  intros Ha. split; [by rewrite Ha|].
  unfold createFrameSource. cbn [layers duration].
  rewrite !filter_app, filter_cons_False by (rewrite Ha; intros H; by apply H).
  reflexivity.
Qed.

Lemma audio_layers_are_ignored_witness :
  type (mkLayer "audio" (lit 0) (lit 10) None) = "audio"
  /\ createFrameSource Sample.externals
       (mkClip (mkLayer "audio" (lit 0) (lit 10) None :: layers Sample.redClip) (lit 10)) 2 1 4
     = createFrameSource Sample.externals Sample.redClip 2 1 4.
Proof.
  split; [reflexivity|].
  apply (audio_layers_are_ignored Sample.externals [] (layers Sample.redClip)
           (mkLayer "audio" (lit 0) (lit 10) None) (lit 10) 2 1 4 eq_refl).
Defined.

(** * Properties of the fabric sources *)

(** ** Arithmetic helpers *)



Lemma lit_0 : lit 0 = S754_zero false.
Proof. reflexivity. Qed.

Lemma lit_1 : lit 1 = S754_finite false 4503599627370496 (-52).
Proof. vm_compute. reflexivity. Qed.

(** Clamping to the unit interval, as [Math.max(0, Math.min(x, 1))]: the
    not-a-number stays, every other number is taken into the interval, and
    a number of the interval is kept, the negative zero as the positive
    one. *)
Lemma clamp_unit (x : JsNum) :
  let level := Js.max (lit 0) (Js.min x (lit 1)) in
  (x = S754_nan -> level = S754_nan)
  /\ (x <> S754_nan -> Js.le (lit 0) level = true /\ Js.le level (lit 1) = true)
  /\ (Js.le (lit 0) x = true -> Js.le x (lit 1) = true -> x <> S754_zero true ->
      level = x).
Proof.
  rewrite lit_0, lit_1. unfold Js.le.
  destruct x as [s|s| |s m e].
  - split; [discriminate|]. split; [intros _; by destruct s|].
    intros _ _ Hs. destruct s; [contradiction|reflexivity].
  - split; [discriminate|]. split; [intros _; by destruct s|].
    destruct s; intros; discriminate.
  - split; [reflexivity|]. split; [contradiction|discriminate].
  - split; [discriminate|]. unfold Js.max, Js.min.
    destruct (SFleb (S754_finite s m e) (S754_finite false 4503599627370496 (-52)))
      eqn:E1.
    + destruct (SFleb (S754_zero false) (S754_finite s m e)) eqn:E0.
      * split; [intros _; by split|reflexivity].
      * split; [intros _; by split|discriminate].
    + split; [intros _; by split|discriminate].
Qed.

(** ** getZoomParams *)



(** ** subtitleFrameSource *)

(** X10. Whatever the progress, the delay and the speed are (the delay and
    the speed given or left to their defaults), the value the subtitle
    passes to easeOutExpo is not a number when [(progress - delay) * speed]
    is not a number, and lies in [0, 1] otherwise; it is that product when
    the product lies in [0, 1] and is not the negative zero.  The frame adds
    the background and then the text, both with the eased value as
    opacity. *)
Theorem subtitle_ease_argument_in_unit_interval {World : Type}
    (env : Fabric.Env World) (width height : JsNum)
    (params : Fabric.Subtitle.Params) (progress : JsNum) (canvas : Fabric.Scene) :
  let delay := default (lit 0) (Fabric.Subtitle.delay params) in
  let speed := default (lit 1) (Fabric.Subtitle.speed params) in
  let product := ((progress - delay) * speed)%jsnum in
  let level := Fabric.Subtitle.subtitleLevel params progress in
  (product = S754_nan -> level = S754_nan)
  /\ (product <> S754_nan ->
      Js.le (lit 0) level = true /\ Js.le level (lit 1) = true)
  /\ (Js.le (lit 0) product = true -> Js.le product (lit 1) = true ->
      product <> S754_zero true -> level = product)
  /\ Fabric.Subtitle.subtitleFrameSource env width height params progress canvas
     = canvas
       ++ [ Fabric.Subtitle.subtitleRect env width height params
              (Fabric.easeOutExpo env level);
            Fabric.Subtitle.subtitleTextBox width height params
              (Fabric.easeOutExpo env level) ].
Proof.
  intros delay speed product level.
  destruct (clamp_unit product) as (Hnan & Hunit & Hkeep).
  split; [exact Hnan|]. split; [exact Hunit|]. split; [exact Hkeep|].
  unfold Fabric.Subtitle.subtitleFrameSource, Fabric.add.
  by rewrite <- app_assoc.
Qed.

(** A progress and a delay whose difference overflows, with the speed 0:
    the subtitle passes the not-a-number to easeOutExpo. *)
Example subtitle_ease_argument_nan :
  Fabric.Subtitle.subtitleLevel
    (Fabric.Subtitle.mk "hello" None None None (Some (lit (-1e308))) (Some (lit 0)))
    (lit 1e308)
  = S754_nan.
Proof. vm_compute. reflexivity. Qed.

(** ** getFadedObject *)



(** ** listFrameSource *)




Lemma substring_0_all (n : nat) (s : string) :
  String.length s <= n -> substring 0 n s = s.
Proof.
  revert s. induction n as [|n IH]; intros [|c s]; simpl; intros H;
    try reflexivity; try lia.
  rewrite IH; [reflexivity | lia].
Qed.


Lemma capText_length_le (text : list string) :
  length (Fabric.TextList.capText text) <= 11.
Proof.
  unfold Fabric.TextList.capText, Fabric.TextList.maxItems.
  destruct (11 <? length text) eqn:E.
  - apply Nat.ltb_lt in E. rewrite length_app, length_take_le by lia. cbn. lia.
  - by apply Nat.ltb_ge in E.
Qed.

(** X14. The list shows at most 11 rows: a text array of more than 11
    entries is cut to its first 10 followed by the row '  ...   ', a
    shorter one is kept.  Capping an array that was capped changes nothing
    more. *)
Theorem capText_bounds (text : list string) :
  length (Fabric.TextList.capText text) <= 11
  /\ (length text <= 11 -> Fabric.TextList.capText text = text)
  /\ (11 < length text ->
      take 10 (Fabric.TextList.capText text) = take 10 text
      /\ length (Fabric.TextList.capText text) = 11
      /\ last (Fabric.TextList.capText text) = Some "  ...   ")
  /\ Fabric.TextList.capText (Fabric.TextList.capText text)
     = Fabric.TextList.capText text.
Proof.
  unfold Fabric.TextList.capText, Fabric.TextList.maxItems.
  change (11 - 1) with 10.
  destruct (11 <? length text) eqn:E.
  - apply Nat.ltb_lt in E.
    assert (Hlen : length (take 10 text ++ ["  ...   "]) = 11).
    { rewrite length_app, length_take_le by lia. reflexivity. }
    repeat split.
    + lia.
    + intros H. lia.
    + rewrite take_app_le by (rewrite length_take_le; lia).
      rewrite take_take. reflexivity.
    + exact Hlen.
    + apply last_snoc.
    + rewrite Hlen. reflexivity.
  - cbv beta iota. rewrite E. apply Nat.ltb_ge in E.
    repeat split; try done; lia.
Qed.

(** X15. The scaler of the stagger time, [getScaler(text.length, 11, 4,
    0.7)] on the capped text, lies between 0.7 and 1: it is 1 for a list of
    at most 4 rows, 0.7 for a list of 11 rows, and smaller with every row
    in between. *)
Theorem getScaler_range (params : Fabric.TextList.Params) :
  let numItems := length (Fabric.TextList.listText params) in
  let scaler (n : nat) :=
    Fabric.TextList.getScaler (ofNat n) (ofNat Fabric.TextList.maxItems) (lit 4) (lit 0.7) in
  (numItems <= 11)%nat
  /\ Fabric.TextList.staggerScaler params = scaler numItems
  /\ Js.le (lit 0.7) (scaler numItems) = true
  /\ Js.le (scaler numItems) (lit 1) = true
  /\ ((numItems <= 4)%nat -> scaler numItems = lit 1)
  /\ (numItems = 11%nat -> scaler numItems = lit 0.7)
  /\ ((4 <= numItems < 11)%nat ->
      Js.lt (scaler (S numItems)) (scaler numItems) = true).
Proof.
  intros numItems scaler.
  assert (Hcap : (numItems <= 11)%nat) by apply capText_length_le.
  split; [exact Hcap|]. split; [reflexivity|].
  clearbody numItems.
  do 12 (destruct numItems as [|numItems];
         [ repeat split; intros;
           first [ lia | discriminate | (vm_compute; reflexivity) ] |]).
  lia.
Qed.






